(** * kac-ca-injector: the mutating admission webhook of [src/app.py]

    A shallow embedding of the Flask handler [mutate] and of its helper
    [create_configmap], with the properties of the written specification
    stated and settled against it.

    Python values are JSON trees; the objects the handler holds references
    to live in a store indexed by object identity, so that the effect of
    [copy.deepcopy] is visible; the Kubernetes API and the remote bundle
    source are a world the handler reads and changes; Python exceptions
    are error results threaded by a small state-and-error monad. *)

From Stdlib Require Import List String Ascii ZArith Bool Lia DecimalString
  DecimalPos DecimalZ.
Import ListNotations.
Local Open Scope string_scope.
Local Open Scope list_scope.

Set Warnings "-register-all".

(** * Part 1: the program *)

(** ** JSON documents: what [request.json] holds *)

(** Objects are association lists in insertion order, as Python dicts are;
    numbers are the integers (the handler creates one number, [420]). *)
Inductive json : Type :=
| JNull
| JBool (b : bool)
| JNum (n : Z)
| JStr (s : string)
| JArr (xs : list json)
| JObj (kvs : list (string * json)).

(** The induction principle that reaches below arrays and objects. *)
Section JsonInd.
Variable P : json -> Prop.
Hypothesis HNull : P JNull.
Hypothesis HBool : forall b, P (JBool b).
Hypothesis HNum : forall n, P (JNum n).
Hypothesis HStr : forall s, P (JStr s).
Hypothesis HArr : forall xs, Forall P xs -> P (JArr xs).
Hypothesis HObj : forall kvs, Forall (fun kv => P (snd kv)) kvs -> P (JObj kvs).

Fixpoint json_deep_ind (j : json) : P j :=
  match j with
  | JNull => HNull
  | JBool b => HBool b
  | JNum n => HNum n
  | JStr s => HStr s
  | JArr xs =>
      HArr xs ((fix go (l : list json) : Forall P l :=
                  match l with
                  | [] => Forall_nil _
                  | x :: l' => Forall_cons _ (json_deep_ind x) (go l')
                  end) xs)
  | JObj kvs =>
      HObj kvs
        ((fix go (l : list (string * json)) : Forall (fun kv => P (snd kv)) l :=
            match l with
            | [] => Forall_nil _
            | kv :: l' => Forall_cons _ (json_deep_ind (snd kv)) (go l')
            end) kvs)
  end.
End JsonInd.

(** Structural equality of documents, as a boolean. *)
Fixpoint json_eqb (a b : json) {struct a} : bool :=
  match a, b with
  | JNull, JNull => true
  | JBool x, JBool y => Bool.eqb x y
  | JNum x, JNum y => Z.eqb x y
  | JStr x, JStr y => String.eqb x y
  | JArr xs, JArr ys =>
      (fix go (l : list json) (r : list json) {struct l} : bool :=
         match l, r with
         | [], [] => true
         | x :: l', y :: r' => json_eqb x y && go l' r'
         | _, _ => false
         end) xs ys
  | JObj xs, JObj ys =>
      (fix go (l : list (string * json)) (r : list (string * json)) {struct l} : bool :=
         match l, r with
         | [], [] => true
         | (k, x) :: l', (k', y) :: r' => String.eqb k k' && json_eqb x y && go l' r'
         | _, _ => false
         end) xs ys
  | _, _ => false
  end.

(** ** Python dictionaries *)

Section Dict.
Variable V : Type.

(** The entry of key [k], if any. *)
Fixpoint dict_lookup (k : string) (d : list (string * V)) : option V :=
  match d with
  | [] => None
  | (k', v) :: d' => if String.eqb k k' then Some v else dict_lookup k d'
  end.

(** [d[k] = v]: an existing key keeps its position, a new key goes last. *)
Fixpoint dict_set (k : string) (v : V) (d : list (string * V)) : list (string * V) :=
  match d with
  | [] => [(k, v)]
  | (k', v') :: d' =>
      if String.eqb k k' then (k, v) :: d' else (k', v') :: dict_set k v d'
  end.

(** [del d[k]]. *)
Fixpoint dict_remove (k : string) (d : list (string * V)) : list (string * V) :=
  match d with
  | [] => []
  | (k', v') :: d' =>
      if String.eqb k k' then d' else (k', v') :: dict_remove k d'
  end.

(** [k in d]. *)
Definition dict_mem (k : string) (d : list (string * V)) : bool :=
  match dict_lookup k d with Some _ => true | None => false end.
End Dict.
Arguments dict_lookup {V} k d.
Arguments dict_set {V} k v d.
Arguments dict_remove {V} k d.
Arguments dict_mem {V} k d.

(** ** Exceptions and results *)

Inductive exn : Type :=
| KeyError (key : string)
| TypeError
| AttributeError
| ApiException (status : Z)
    (** [kubernetes.client.exceptions.ApiException], with its HTTP status *)
| FetchException (url : string) (status_code : Z)
    (** [Exception(f"fetch {ca_bundle_url} failed: {r.status_code}")] *)
| UnicodeDecodeError
| OtherError (name : string)
    (** any exception of another class raised by a collaborator *).

Inductive result (A : Type) : Type :=
| Ok (a : A)
| Raise (e : exn).
Arguments Ok {A} a.
Arguments Raise {A} e.

(** [isinstance(e, ApiException)], what [except ApiException] tests. *)
Definition is_ApiException (e : exn) : bool :=
  match e with ApiException _ => true | _ => false end.

(** ** The monad: a state of type [S], and exceptions *)

Definition M (S A : Type) : Type := S -> result A * S.

Definition ret {S A} (a : A) : M S A := fun s => (Ok a, s).
Definition raise {S A} (e : exn) : M S A := fun s => (Raise e, s).
Definition bind {S A B} (m : M S A) (k : A -> M S B) : M S B :=
  fun s => match m s with
           | (Ok a, s') => k a s'
           | (Raise e, s') => (Raise e, s')
           end.

(** A computation on values that may raise, run in a state it leaves
    alone. *)
Definition lift {S A} (r : result A) : M S A := fun s => (r, s).

Declare Scope py_scope.
Delimit Scope py_scope with py.
Notation "x <- c1 ;; c2" := (bind c1 (fun x => c2))
  (at level 61, c1 at next level, right associativity) : py_scope.
Notation "c1 ;; c2" := (bind c1 (fun _ => c2))
  (at level 61, right associativity) : py_scope.
Local Open Scope py_scope.

(** [try: body except ApiException: handler]. *)
Definition try_except_ApiException {S A} (body handler : M S A) : M S A :=
  fun s => match body s with
           | (Raise e, s') => if is_ApiException e then handler s' else (Raise e, s')
           | r => r
           end.

(** Sequencing of computations on values. *)
Definition rbind {A B} (r : result A) (k : A -> result B) : result B :=
  match r with Ok a => k a | Raise e => Raise e end.

Fixpoint mapR {A B} (f : A -> result B) (l : list A) : result (list B) :=
  match l with
  | [] => Ok []
  | x :: l' => rbind (f x) (fun y => rbind (mapR f l') (fun ys => Ok (y :: ys)))
  end.

(** ** Python operations on values *)

(** [k in s] for two [str]: [k] occurs in [s]. *)
Fixpoint str_contains (k s : string) : bool :=
  String.prefix k s
  || match s with
     | EmptyString => false
     | String _ s' => str_contains k s'
     end.

(** [v == 'literal']: a value equals a [str] only when it is that [str]. *)
Definition eq_str (v : json) (s : string) : bool :=
  match v with JStr t => String.eqb t s | _ => false end.

(** [j[k]] with a [str] key: [KeyError] on a dict without the key,
    [TypeError] on anything that is not a dict. *)
Definition py_getitem (j : json) (k : string) : result json :=
  match j with
  | JObj d => match dict_lookup k d with
              | Some v => Ok v
              | None => Raise (KeyError k)
              end
  | _ => Raise TypeError
  end.

(** [j.get(k)]: only dicts have the method; a missing key gives [None]. *)
Definition py_get (j : json) (k : string) : result json :=
  match j with
  | JObj d => match dict_lookup k d with
              | Some v => Ok v
              | None => Ok JNull
              end
  | _ => Raise AttributeError
  end.

(** [k in j] with a [str] key: key membership on a dict, element membership
    on a list, substring test on a [str], [TypeError] otherwise. *)
Definition py_contains (k : string) (j : json) : result bool :=
  match j with
  | JObj d => Ok (dict_mem k d)
  | JArr xs => Ok (existsb (fun x => eq_str x k) xs)
  | JStr s => Ok (str_contains k s)
  | _ => Raise TypeError
  end.

(** [j[k] = v], as the new value of the object [j]. *)
Definition py_setitem (k : string) (v : json) (j : json) : result json :=
  match j with
  | JObj d => Ok (JObj (dict_set k v d))
  | _ => Raise TypeError
  end.

(** [j.append(v)], as the new value of the object [j]: only lists have the
    method. *)
Definition py_append (v : json) (j : json) : result json :=
  match j with
  | JArr xs => Ok (JArr (xs ++ [v]))
  | _ => Raise AttributeError
  end.

(** What [for c in j] iterates over: the elements of a list, the keys of a
    dict, the characters of a [str]. *)
Definition py_iter (j : json) : result (list json) :=
  match j with
  | JArr xs => Ok xs
  | JObj d => Ok (map (fun kv => JStr (fst kv)) d)
  | JStr s => Ok (map (fun c => JStr (String c EmptyString)) (list_ascii_of_string s))
  | _ => Raise TypeError
  end.

(** [for c in j: body(c)] where the body changes the object [c] in place:
    the new value of [j]. Only the elements of a list are objects of the
    document; the keys of a dict and the characters of a [str] are fresh
    strings. *)
Definition py_for (body : json -> result json) (j : json) : result json :=
  rbind (py_iter j) (fun items =>
  rbind (mapR body items) (fun items' =>
  match j with
  | JArr _ => Ok (JArr items')
  | _ => Ok j
  end)).

(** ** The store of Python objects *)

(** A document built by the JSON parser or by [deepcopy] is a tree of fresh
    objects. The store keeps one entry per such document, and a reference
    names a document and the keys that lead to one of its sub-objects: two
    references into the same document alias, two references into different
    documents never do. *)
Definition store : Type := list json.
Definition ref : Type := (nat * list string)%type.

Fixpoint get_path (p : list string) (j : json) : result json :=
  match p with
  | [] => Ok j
  | k :: p' => rbind (py_getitem j k) (get_path p')
  end.

(** The in-place change [f] of the sub-object at path [p], as the new value
    of the document. *)
Fixpoint at_path (p : list string) (f : json -> result json) (j : json) : result json :=
  match p with
  | [] => f j
  | k :: p' =>
      rbind (py_getitem j k) (fun v =>
      rbind (at_path p' f v) (fun v' =>
      py_setitem k v' j))
  end.

Fixpoint list_update {A} (i : nat) (x : A) (l : list A) : list A :=
  match l, i with
  | [], _ => []
  | _ :: l', O => x :: l'
  | y :: l', S i' => y :: list_update i' x l'
  end.

(** The value a reference leads to. *)
Definition load (r : ref) : M store json :=
  fun st => (get_path (snd r) (nth (fst r) st JNull), st).

(** The object a reference leads to, changed in place by [f]: the document
    is replaced by its new value; when [f] raises nothing is written. *)
Definition modify (r : ref) (f : json -> result json) : M store unit :=
  fun st => match at_path (snd r) f (nth (fst r) st JNull) with
            | Ok j' => (Ok tt, list_update (fst r) j' st)
            | Raise e => (Raise e, st)
            end.

(** A new document, and the reference to it. *)
Definition alloc (v : json) : M store ref :=
  fun st => (Ok (List.length st, []), st ++ [v]).

(** [r[k]]: a reference to the sub-object, once the key is known to be
    there. *)
Definition subscript (r : ref) (k : string) : M store ref :=
  v <- load r ;;
  _ <- lift (py_getitem v k) ;;
  ret (fst r, snd r ++ [k]).

(** [copy.deepcopy(r)]: a new document with the same value. *)
Definition deepcopy (r : ref) : M store ref :=
  v <- load r ;; alloc v.

(** [k in r], [r.get(k)], [r[k] = v], [r.append(v)] and
    [for c in r: body(c)] on the object [r] leads to. *)
Definition contains (k : string) (r : ref) : M store bool :=
  v <- load r ;; lift (py_contains k v).

Definition method_get (r : ref) (k : string) : M store json :=
  v <- load r ;; lift (py_get v k).

Definition setitem (r : ref) (k : string) (v : json) : M store unit :=
  modify r (py_setitem k v).

Definition method_append (r : ref) (v : json) : M store unit :=
  modify r (py_append v).

(** [for c in r: body(c)]. When the body raises on a later member, Python
    has by then changed the earlier members in place, while here the
    document is left as it was before the loop. The two differ only in the
    copy after such a raise, which the handler drops with the exception;
    the properties below that state a copy after a raise do so where no
    loop has started a write. *)
Definition for_each (r : ref) (body : json -> result json) : M store unit :=
  modify r (py_for body).

(** ** The world outside the process *)

(** A ConfigMap of the cluster: what [client.V1ConfigMap] carries. The
    namespace is whatever value the object under review had at
    [metadata.namespace]. *)
Record ConfigMap : Type := {
  cm_namespace : json;
  cm_name : string;
  cm_data : list (string * string)
}.

(** The answer of the remote bundle source to [requests.get]. *)
Record Response : Type := {
  status_code : Z;
  content : string
}.

(** The calls the handler makes to its collaborators, in order. *)
Inductive call : Type :=
| CallRead (namespace : json) (name : string)
| CallFetch (url : string)
| CallCreate (namespace : json) (name : string).

(** The cluster, the trace of calls made so far, and how the collaborators
    answer: a read or a create may fail with an exception of its own
    ([read_fault], [create_fault]: permission denied, a server error, a
    broken connection), and the remote source raises or answers. *)
Record World : Type := {
  cluster : list ConfigMap;
  calls : list call;
  read_fault : option exn;
  create_fault : option exn;
  remote : string -> exn + Response
}.

Definition log (c : call) (w : World) : World :=
  {| cluster := cluster w; calls := calls w ++ [c];
     read_fault := read_fault w; create_fault := create_fault w;
     remote := remote w |}.

Definition add_configmap (cm : ConfigMap) (w : World) : World :=
  {| cluster := cluster w ++ [cm]; calls := calls w;
     read_fault := read_fault w; create_fault := create_fault w;
     remote := remote w |}.

Definition is_cm (namespace : json) (name : string) (cm : ConfigMap) : bool :=
  json_eqb (cm_namespace cm) namespace && String.eqb (cm_name cm) name.

Definition has_cm (namespace : json) (name : string) (cl : list ConfigMap) : bool :=
  existsb (is_cm namespace name) cl.

Definition count_cm (namespace : json) (name : string) (cl : list ConfigMap) : nat :=
  List.length (filter (is_cm namespace name) cl).

(** Modelled from the spec: the Kubernetes API server is a collaborator
    (section 6: [get ConfigMap(namespace, name)], [create
    ConfigMap(namespace, body)]); a read of a missing ConfigMap fails with
    status 404 and the create call itself rejects duplicate creation
    (section 5), with status 409. *)
Definition read_namespaced_config_map (namespace : json) (name : string) : M World unit :=
  fun w =>
    let w' := log (CallRead namespace name) w in
    match read_fault w with
    | Some e => (Raise e, w')
    | None => if has_cm namespace name (cluster w) then (Ok tt, w')
              else (Raise (ApiException 404), w')
    end.

Definition create_namespaced_config_map (namespace : json) (body : ConfigMap) : M World unit :=
  fun w =>
    let w' := log (CallCreate namespace (cm_name body)) w in
    match create_fault w with
    | Some e => (Raise e, w')
    | None => if has_cm namespace (cm_name body) (cluster w)
              then (Raise (ApiException 409), w')
              else (Ok tt, add_configmap body w')
    end.

(** [requests.get(url, stream=True)]. *)
Definition requests_get (url : string) : M World Response :=
  fun w =>
    let w' := log (CallFetch url) w in
    match remote w url with
    | inl e => (Raise e, w')
    | inr r => (Ok r, w')
    end.

(** [bytes.decode('ascii')]: every byte must be below 128. *)
Definition decode_ascii (bytes : string) : result string :=
  if forallb (fun c => Nat.ltb (nat_of_ascii c) 128) (list_ascii_of_string bytes)
  then Ok bytes else Raise UnicodeDecodeError.

(** ** JSON Patch *)

(** The operations of a patch document (glossary: add, remove, replace,
    move); a path is the list of the reference tokens of its JSON
    pointer. *)
Inductive op : Type :=
| OpAdd (path : list string) (value : json)
| OpRemove (path : list string)
| OpReplace (path : list string) (value : json)
| OpMove (from path : list string).

Definition digit (c : ascii) : option nat :=
  let n := nat_of_ascii c in
  if Nat.leb 48 n && Nat.leb n 57 then Some (n - 48) else None.

Fixpoint parse_digits (acc : nat) (s : string) : option nat :=
  match s with
  | EmptyString => Some acc
  | String c s' => match digit c with
                   | Some d => parse_digits (10 * acc + d) s'
                   | None => None
                   end
  end.

(** An array index: decimal digits without a leading zero. *)
Definition parse_index (s : string) : option nat :=
  match s with
  | EmptyString => None
  | String c s' =>
      if Ascii.eqb c "0"%char
      then match s' with EmptyString => Some 0 | _ => None end
      else parse_digits 0 s
  end.

Definition child (t : string) (j : json) : option json :=
  match j with
  | JObj d => dict_lookup t d
  | JArr xs => match parse_index t with
               | Some i => nth_error xs i
               | None => None
               end
  | _ => None
  end.

Definition replace_leaf (v : json) (t : string) (j : json) : option json :=
  match j with
  | JObj d => if dict_mem t d then Some (JObj (dict_set t v d)) else None
  | JArr xs => match parse_index t with
               | Some i => if Nat.ltb i (List.length xs)
                           then Some (JArr (list_update i v xs)) else None
               | None => None
               end
  | _ => None
  end.

Definition add_leaf (v : json) (t : string) (j : json) : option json :=
  match j with
  | JObj d => Some (JObj (dict_set t v d))
  | JArr xs =>
      if String.eqb t "-" then Some (JArr (xs ++ [v]))
      else match parse_index t with
           | Some i => if Nat.leb i (List.length xs)
                       then Some (JArr (firstn i xs ++ v :: skipn i xs))
                       else None
           | None => None
           end
  | _ => None
  end.

Definition remove_leaf (t : string) (j : json) : option json :=
  match j with
  | JObj d => if dict_mem t d then Some (JObj (dict_remove t d)) else None
  | JArr xs => match parse_index t with
               | Some i => if Nat.ltb i (List.length xs)
                           then Some (JArr (firstn i xs ++ skipn (S i) xs))
                           else None
               | None => None
               end
  | _ => None
  end.

Fixpoint pointer_get (p : list string) (j : json) : option json :=
  match p with
  | [] => Some j
  | t :: p' => match child t j with
               | Some c => pointer_get p' c
               | None => None
               end
  end.

(** The change [leaf] made at the parent of the last token of a non-empty
    pointer. *)
Fixpoint at_pointer (p : list string) (leaf : string -> json -> option json)
    (j : json) : option json :=
  match p with
  | [] => None
  | t :: p' =>
      match p' with
      | [] => leaf t j
      | _ => match child t j with
             | Some c => match at_pointer p' leaf c with
                         | Some c' => replace_leaf c' t j
                         | None => None
                         end
             | None => None
             end
      end
  end.

Definition pointer_add (p : list string) (v : json) (doc : json) : option json :=
  match p with
  | [] => Some v
  | _ => at_pointer p (add_leaf v) doc
  end.

Definition pointer_remove (p : list string) (doc : json) : option json :=
  at_pointer p remove_leaf doc.

Definition apply_op (o : op) (doc : json) : option json :=
  match o with
  | OpAdd p v => pointer_add p v doc
  | OpRemove p => pointer_remove p doc
  | OpReplace p v =>
      match p with
      | [] => Some v
      | _ => at_pointer p (replace_leaf v) doc
      end
  | OpMove from p =>
      match pointer_get from doc with
      | Some v => match pointer_remove from doc with
                  | Some doc' => pointer_add p v doc'
                  | None => None
                  end
      | None => None
      end
  end.

(** Modelled from the spec: the patch is applied by the API server, outside
    this repository; its operations are the RFC 6902 ones of section 4.3,
    applied in order, the whole patch failing when one operation does. *)
Fixpoint apply_patch (p : list op) (doc : json) : option json :=
  match p with
  | [] => Some doc
  | o :: p' => match apply_op o doc with
               | Some doc' => apply_patch p' doc'
               | None => None
               end
  end.

(** ** The handler *)

(** The four values read from the environment when the module is loaded. *)
Record Config : Type := {
  configmap_name : string;
  ca_bundle_filename : string;
  ca_bundle_url : string;
  ca_bundle_annotation : string
}.

(** The state of a request: the Python objects and the world. *)
Definition on_store {A} (m : M store A) : M (store * World) A :=
  fun s => let (r, st') := m (fst s) in (r, (st', snd s)).

Definition on_world {A} (m : M World A) : M (store * World) A :=
  fun s => let (r, w') := m (snd s) in (r, (fst s, w')).

(** The state in which a request starts: the parsed body, [request.json],
    is the only document. *)
Definition request_json : ref := (0, []).
Definition start (body : json) (w : World) : store * World := ([body], w).

Section Handler.
Variable cfg : Config.

(** The library functions the response is built with:
    [jsonpatch.JsonPatch.from_diff], [str] of a patch (its JSON text), and
    [base64.b64encode(s.encode()).decode()]. *)
Variable from_diff : json -> json -> list op.
Variable str_patch : list op -> string.
Variable b64encode : string -> string.

(** [create_configmap(v1_api, namespace)]. *)
Definition create_configmap (namespace : json) : M World unit :=
  r <- requests_get (ca_bundle_url cfg) ;;
  ca_bundle <-
    (if negb (Z.eqb (status_code r) 200)
     then raise (FetchException (ca_bundle_url cfg) (status_code r))
     else lift (decode_ascii (content r))) ;;
  create_namespaced_config_map namespace
    {| cm_namespace := namespace;
       cm_name := configmap_name cfg;
       cm_data := [(ca_bundle_filename cfg, ca_bundle)] |}.

(** Lines 50 to 53 of [mutate]: the read, and [create_configmap] when the
    read raises [ApiException]. *)
Definition ensure (namespace : json) : M World unit :=
  try_except_ApiException
    (read_namespaced_config_map namespace (configmap_name cfg))
    (create_configmap namespace).

(** Lines 55 to 61. *)
Definition volume : json :=
  JObj [("name", JStr "ca-bundle");
        ("configMap", JObj [("name", JStr (configmap_name cfg));
                            ("defaultMode", JNum 420)])].

(** Lines 62 to 66. *)
Definition volume_mount : json :=
  JObj [("name", JStr "ca-bundle");
        ("mountPath", JStr (String.append "/etc/ssl/certs/" (ca_bundle_filename cfg)));
        ("subPath", JStr (ca_bundle_filename cfg))].

(** The body of both loops, on the container [c]:
    [if 'volumeMounts' in c: c['volumeMounts'].append(volume_mount)]
    [else: c['volumeMounts'] = [volume_mount]]. *)
Definition add_volume_mount (c : json) : result json :=
  rbind (py_contains "volumeMounts" c) (fun has_mounts =>
  if has_mounts
  then at_path ["volumeMounts"] (py_append volume_mount) c
  else py_setitem "volumeMounts" (JArr [volume_mount]) c).

(** Lines 68 to 71. *)
Definition add_volume (modified_spec : ref) : M store unit :=
  sp <- subscript modified_spec "spec" ;;
  has_volumes <- contains "volumes" sp ;;
  if has_volumes
  then vs <- subscript sp "volumes" ;; method_append vs volume
  else setitem sp "volumes" (JArr [volume]).

(** Lines 73 to 78. *)
Definition mount_init_containers (modified_spec : ref) : M store unit :=
  sp <- subscript modified_spec "spec" ;;
  has_init <- contains "initContainers" sp ;;
  if has_init
  then ics <- subscript sp "initContainers" ;; for_each ics add_volume_mount
  else ret tt.

(** Lines 80 to 84. *)
Definition mount_containers (modified_spec : ref) : M store unit :=
  sp <- subscript modified_spec "spec" ;;
  cs <- subscript sp "containers" ;;
  for_each cs add_volume_mount.

(** Lines 42 to 84: the two references [spec] and [modified_spec] the rest
    of the handler uses. [config.load_incluster_config()] and the
    construction of the API client are part of the transport and have no
    counterpart here. *)
Definition mutate_plan (request_json : ref) : M (store * World) (ref * ref) :=
  req <- on_store (subscript request_json "request") ;;
  spec <- on_store (subscript req "object") ;;
  modified_spec <- on_store (deepcopy spec) ;;
  md <- on_store (subscript modified_spec "metadata") ;;
  anns <- on_store (subscript md "annotations") ;;
  a <- on_store (method_get anns (ca_bundle_annotation cfg)) ;;
  (if eq_str a "true"
   then
     md <- on_store (subscript modified_spec "metadata") ;;
     ns <- on_store (subscript md "namespace") ;;
     namespace <- on_store (load ns) ;;
     on_world (ensure namespace) ;;
     on_store (add_volume modified_spec) ;;
     on_store (mount_init_containers modified_spec) ;;
     on_store (mount_containers modified_spec)
   else ret tt) ;;
  ret (spec, modified_spec).

(** The patch field of the response:
    [base64.b64encode(str(patch).encode()).decode()]. *)
Definition encode_patch (patch : list op) : string :=
  b64encode (str_patch patch).

(** Lines 87 to 96: the dictionary given to [jsonify]. *)
Definition review (uid : json) (patch : list op) : json :=
  JObj [("apiVersion", JStr "admission.k8s.io/v1");
        ("kind", JStr "AdmissionReview");
        ("response", JObj [("allowed", JBool true);
                           ("uid", uid);
                           ("patch", JStr (encode_patch patch));
                           ("patchType", JStr "JSONPatch")])].

(** The handler of [POST /mutate]; [request_json] is the parsed body. *)
Definition mutate (request_json : ref) : M (store * World) json :=
  refs <- mutate_plan request_json ;;
  original <- on_store (load (fst refs)) ;;
  modified <- on_store (load (snd refs)) ;;
  let patch := from_diff original modified in
  req <- on_store (subscript request_json "request") ;;
  u <- on_store (subscript req "uid") ;;
  uid <- on_store (load u) ;;
  ret (review uid patch).

(** One request: the handler run on a body in a world. *)
Definition handler (body : json) (w : World) : result json * (store * World) :=
  mutate request_json (start body w).

(** *** The statements of lines 68 to 84 as changes of one document *)

(** Lines 68 to 71, on the document [modified_spec] refers to. *)
Definition add_volume_doc (d : json) : result json :=
  rbind (py_getitem d "spec") (fun sp =>
  rbind (py_contains "volumes" sp) (fun has_volumes =>
  if has_volumes
  then at_path ["spec"; "volumes"] (py_append volume) d
  else at_path ["spec"] (py_setitem "volumes" (JArr [volume])) d)).

(** Lines 73 to 78. *)
Definition mount_init_containers_doc (d : json) : result json :=
  rbind (py_getitem d "spec") (fun sp =>
  rbind (py_contains "initContainers" sp) (fun has_init =>
  if has_init
  then at_path ["spec"; "initContainers"] (py_for add_volume_mount) d
  else Ok d)).

(** Lines 80 to 84. *)
Definition mount_containers_doc (d : json) : result json :=
  at_path ["spec"; "containers"] (py_for add_volume_mount) d.

(** The three statements in a row: the outcome, and the document as the
    last statement that returned left it. *)
Definition inject_doc (d : json) : result unit * json :=
  match add_volume_doc d with
  | Raise e => (Raise e, d)
  | Ok d1 =>
      match mount_init_containers_doc d1 with
      | Raise e => (Raise e, d1)
      | Ok d2 =>
          match mount_containers_doc d2 with
          | Raise e => (Raise e, d2)
          | Ok d3 => (Ok tt, d3)
          end
      end
  end.

(** What the handler reads in the body of the request. *)
Definition the_object (body : json) : result json :=
  get_path ["request"; "object"] body.

Definition the_uid (body : json) : result json :=
  get_path ["request"; "uid"] body.

Definition the_annotation (obj : json) : result json :=
  rbind (get_path ["metadata"; "annotations"] obj) (fun anns =>
  py_get anns (ca_bundle_annotation cfg)).

Definition the_namespace (obj : json) : result json :=
  get_path ["metadata"; "namespace"] obj.

End Handler.

(** The references [mutate_plan] returns for a request that starts with
    the body alone. *)
Definition spec_ref : ref := (0, ["request"; "object"]).
Definition modified_spec_ref : ref := (1, []).

(** ** Reading a pod document *)

(** The value of [spec.<field>], when the document has one. *)
Definition spec_field (field : string) (doc : json) : option json :=
  match get_path ["spec"; field] doc with
  | Ok v => Some v
  | Raise _ => None
  end.

(** The entries of an optional sequence: none when it is absent. *)
Definition entries (v : option json) : list json :=
  match v with
  | Some (JArr xs) => xs
  | _ => []
  end.

Definition volumes_of (doc : json) : list json :=
  entries (spec_field "volumes" doc).

Definition containers_of (field : string) (doc : json) : list json :=
  entries (spec_field field doc).

Definition mounts_of (c : json) : list json :=
  match py_getitem c "volumeMounts" with
  | Ok (JArr ms) => ms
  | _ => []
  end.

(** [c'] has the mounts of [c], and then the mount of the bundle. *)
Definition mounted (cfg : Config) (c c' : json) : Prop :=
  mounts_of c' = mounts_of c ++ [volume_mount cfg].

(** [d'] is [d] with [spec.<field>] set to [v]; the other fields of [spec]
    are as in [d]. *)
Definition sets_spec_field (field : string) (v : json) (d d' : json) : Prop :=
  forall f, spec_field f d' = if String.eqb field f then Some v else spec_field f d.

(** ** A configuration, a library and worlds to run the handler with *)

Definition cfg0 : Config :=
  {| configmap_name := "ca-bundle";
     ca_bundle_filename := "ca.pem";
     ca_bundle_url := "http://ca.internal/ca.pem";
     ca_bundle_annotation := "ca-injector/inject" |}.

(** The crudest diff that meets the contract of [from_diff]: no operation
    between equal documents, a replacement of the whole document
    otherwise. *)
Definition root_diff (a b : json) : list op :=
  if json_eqb a b then [] else [OpReplace [] b].

(** Standard base64, with padding. *)
Definition b64_alphabet : string :=
  "ABCDEFGHIJKLMNOPQRSTUVWXYZabcdefghijklmnopqrstuvwxyz0123456789+/".

Definition b64_char (n : nat) : ascii :=
  match String.get n b64_alphabet with
  | Some c => c
  | None => "="%char
  end.

Fixpoint b64_groups (bytes : list nat) : list ascii :=
  match bytes with
  | [] => []
  | [a] =>
      [b64_char (a / 4); b64_char (a mod 4 * 16); "="%char; "="%char]
  | [a; b] =>
      [b64_char (a / 4); b64_char (a mod 4 * 16 + b / 16);
       b64_char (b mod 16 * 4); "="%char]
  | a :: b :: c :: rest =>
      b64_char (a / 4) :: b64_char (a mod 4 * 16 + b / 16)
      :: b64_char (b mod 16 * 4 + c / 64) :: b64_char (c mod 64)
      :: b64_groups rest
  end.

Definition std_b64encode (s : string) : string :=
  string_of_list_ascii (b64_groups (map nat_of_ascii (list_ascii_of_string s))).

(** The JSON text of a document with the separators of [json.dumps], for
    strings of printable ASCII characters. *)
Definition quote_char : ascii := ascii_of_nat 34.
Definition backslash_char : ascii := ascii_of_nat 92.

Fixpoint escape (s : string) : string :=
  match s with
  | EmptyString => EmptyString
  | String c s' =>
      if Ascii.eqb c quote_char || Ascii.eqb c backslash_char
      then String backslash_char (String c (escape s'))
      else String c (escape s')
  end.

Definition quoted (s : string) : string :=
  String quote_char (String.append (escape s) (String quote_char EmptyString)).

Fixpoint dumps (j : json) : string :=
  match j with
  | JNull => "null"
  | JBool true => "true"
  | JBool false => "false"
  | JNum n => NilZero.string_of_int (Z.to_int n)
  | JStr s => quoted s
  | JArr xs =>
      String.append "["
        (String.append
           ((fix go (l : list json) : string :=
               match l with
               | [] => EmptyString
               | x :: l' =>
                   match l' with
                   | [] => dumps x
                   | _ => String.append (dumps x) (String.append ", " (go l'))
                   end
               end) xs) "]")
  | JObj kvs =>
      String.append "{"
        (String.append
           ((fix go (l : list (string * json)) : string :=
               match l with
               | [] => EmptyString
               | (k, x) :: l' =>
                   let member := String.append (quoted k) (String.append ": " (dumps x)) in
                   match l' with
                   | [] => member
                   | _ => String.append member (String.append ", " (go l'))
                   end
               end) kvs) "}")
  end.

(** A JSON pointer as text: [~] and [/] are written [~0] and [~1]. *)
Fixpoint escape_token (s : string) : string :=
  match s with
  | EmptyString => EmptyString
  | String c s' =>
      if Ascii.eqb c "~"%char then String.append "~0" (escape_token s')
      else if Ascii.eqb c "/"%char then String.append "~1" (escape_token s')
      else String c (escape_token s')
  end.

Definition pointer_text (p : list string) : string :=
  String.concat EmptyString (map (fun t => String.append "/" (escape_token t)) p).

Definition op_json (o : op) : json :=
  match o with
  | OpAdd p v =>
      JObj [("op", JStr "add"); ("path", JStr (pointer_text p)); ("value", v)]
  | OpRemove p =>
      JObj [("op", JStr "remove"); ("path", JStr (pointer_text p))]
  | OpReplace p v =>
      JObj [("op", JStr "replace"); ("path", JStr (pointer_text p)); ("value", v)]
  | OpMove from p =>
      JObj [("op", JStr "move"); ("from", JStr (pointer_text from));
            ("path", JStr (pointer_text p))]
  end.

Definition patch_text (p : list op) : string :=
  dumps (JArr (map op_json p)).

(** ** Reading the patch back

    What a client of the webhook does with the [patch] field: the base64
    text is decoded, the JSON text parsed, and the operations read off the
    array; the inverse of [std_b64encode] and of [patch_text]. *)

(** The members of a sequence as [dumps] writes them, with [", "] between
    them. *)
Fixpoint joined {A} (pr : A -> string) (l : list A) : string :=
  match l with
  | [] => EmptyString
  | x :: l' =>
      match l' with
      | [] => pr x
      | _ => String.append (pr x) (String.append ", " (joined pr l'))
      end
  end.

Definition member_text (kv : string * json) : string :=
  String.append (quoted (fst kv)) (String.append ": " (dumps (snd kv))).

(** The position of a character in a string. *)
Fixpoint index_of (c : ascii) (s : string) : option nat :=
  match s with
  | EmptyString => None
  | String d s' =>
      if Ascii.eqb c d then Some 0
      else match index_of c s' with
           | Some n => Some (S n)
           | None => None
           end
  end.

Definition b64_index (c : ascii) : option nat := index_of c b64_alphabet.

(** The bytes of base64 text, four characters at a time; padding is
    accepted in the last group only. *)
Fixpoint b64_bytes (l : list ascii) : option (list nat) :=
  match l with
  | [] => Some []
  | c1 :: c2 :: c3 :: c4 :: rest =>
      match b64_index c1, b64_index c2 with
      | Some n1, Some n2 =>
          if Ascii.eqb c3 "="%char
          then
            if Ascii.eqb c4 "="%char
            then match rest with
                 | [] => Some [n1 * 4 + n2 / 16]
                 | _ => None
                 end
            else None
          else
            match b64_index c3 with
            | Some n3 =>
                if Ascii.eqb c4 "="%char
                then match rest with
                     | [] => Some [n1 * 4 + n2 / 16; n2 mod 16 * 16 + n3 / 4]
                     | _ => None
                     end
                else
                  match b64_index c4, b64_bytes rest with
                  | Some n4, Some bytes =>
                      Some (n1 * 4 + n2 / 16
                            :: n2 mod 16 * 16 + n3 / 4
                            :: n3 mod 4 * 64 + n4
                            :: bytes)
                  | _, _ => None
                  end
            | None => None
            end
      | _, _ => None
      end
  | _ => None
  end.

Definition std_b64decode (s : string) : option string :=
  match b64_bytes (list_ascii_of_string s) with
  | Some bytes => Some (string_of_list_ascii (map ascii_of_nat bytes))
  | None => None
  end.

(** [s] without the prefix [p]. *)
Fixpoint strip_prefix (p s : string) : option string :=
  match p with
  | EmptyString => Some s
  | String c p' =>
      match s with
      | String d s' => if Ascii.eqb c d then strip_prefix p' s' else None
      | EmptyString => None
      end
  end.

(** The characters of a number: the sign and the digits. *)
Definition is_num_char (c : ascii) : bool :=
  Ascii.eqb c "-"%char
  || (Nat.leb 48 (nat_of_ascii c) && Nat.leb (nat_of_ascii c) 57).

Fixpoint span_num (s : string) : string * string :=
  match s with
  | EmptyString => (EmptyString, EmptyString)
  | String c s' =>
      if is_num_char c
      then let (a, r) := span_num s' in (String c a, r)
      else (EmptyString, s)
  end.

(** A string literal after its opening quote: the text up to the closing
    quote, a backslash standing for the character after it. *)
Fixpoint parse_string (s : string) : option (string * string) :=
  match s with
  | EmptyString => None
  | String c s' =>
      if Ascii.eqb c quote_char then Some (EmptyString, s')
      else if Ascii.eqb c backslash_char
      then match s' with
           | String d s'' =>
               match parse_string s'' with
               | Some (t, r) => Some (String d t, r)
               | None => None
               end
           | EmptyString => None
           end
      else match parse_string s' with
           | Some (t, r) => Some (String c t, r)
           | None => None
           end
  end.

(** At least one member read by [pv], [", "] between two, up to the
    character [close]. *)
Fixpoint parse_items {A} (pv : string -> option (A * string)) (close : ascii)
    (n : nat) (s : string) : option (list A * string) :=
  match n with
  | 0 => None
  | S n' =>
      match pv s with
      | Some (x, String c r) =>
          if Ascii.eqb c close then Some ([x], r)
          else if Ascii.eqb c ","%char
          then match r with
               | String d r' =>
                   if Ascii.eqb d " "%char
                   then match parse_items pv close n' r' with
                        | Some (xs, r'') => Some (x :: xs, r'')
                        | None => None
                        end
                   else None
               | EmptyString => None
               end
          else None
      | _ => None
      end
  end.

(** A member of an object: the key, [": "], the value read by [pv]. *)
Definition parse_member (pv : string -> option (json * string)) (s : string)
  : option ((string * json) * string) :=
  match s with
  | String c s' =>
      if Ascii.eqb c quote_char
      then match parse_string s' with
           | Some (k, String c1 (String c2 r)) =>
               if Ascii.eqb c1 ":"%char && Ascii.eqb c2 " "%char
               then match pv r with
                    | Some (v, r') => Some ((k, v), r')
                    | None => None
                    end
               else None
           | _ => None
           end
      else None
  | EmptyString => None
  end.

(** A value at the head of [s], and the rest of [s]; [fuel] bounds the
    nesting and the number of members. *)
Fixpoint parse_value (fuel : nat) (s : string) : option (json * string) :=
  match fuel with
  | 0 => None
  | S f =>
      match s with
      | EmptyString => None
      | String c s' =>
          if is_num_char c
          then let (a, r) := span_num s in
               match NilZero.int_of_string a with
               | Some d => Some (JNum (Z.of_int d), r)
               | None => None
               end
          else if Ascii.eqb c quote_char
          then match parse_string s' with
               | Some (t, r) => Some (JStr t, r)
               | None => None
               end
          else if Ascii.eqb c "["%char
          then match s' with
               | String c' r =>
                   if Ascii.eqb c' "]"%char then Some (JArr [], r)
                   else match parse_items (parse_value f) "]"%char f s' with
                        | Some (xs, r') => Some (JArr xs, r')
                        | None => None
                        end
               | EmptyString => None
               end
          else if Ascii.eqb c "{"%char
          then match s' with
               | String c' r =>
                   if Ascii.eqb c' "}"%char then Some (JObj [], r)
                   else match parse_items (parse_member (parse_value f))
                                "}"%char f s' with
                        | Some (kvs, r') => Some (JObj kvs, r')
                        | None => None
                        end
               | EmptyString => None
               end
          else match strip_prefix "null" s with
               | Some r => Some (JNull, r)
               | None =>
                   match strip_prefix "true" s with
                   | Some r => Some (JBool true, r)
                   | None =>
                       match strip_prefix "false" s with
                       | Some r => Some (JBool false, r)
                       | None => None
                       end
                   end
               end
      end
  end.

(** [json.loads] on the texts [dumps] writes. *)
Definition loads (s : string) : option json :=
  match parse_value (String.length s) s with
  | Some (j, EmptyString) => Some j
  | _ => None
  end.

(** The tokens of a JSON pointer, after a [/]: the first token, and those
    after it. *)
Fixpoint pointer_tokens (s : string) : string * list string :=
  match s with
  | EmptyString => (EmptyString, [])
  | String c s' =>
      if Ascii.eqb c "/"%char
      then let (t, ts) := pointer_tokens s' in (EmptyString, t :: ts)
      else if Ascii.eqb c "~"%char
      then match s' with
           | String d s'' =>
               let (t, ts) := pointer_tokens s'' in
               (String (if Ascii.eqb d "0"%char then "~"%char else "/"%char) t, ts)
           | EmptyString => (String c EmptyString, [])
           end
      else let (t, ts) := pointer_tokens s' in (String c t, ts)
  end.

Definition parse_pointer (s : string) : option (list string) :=
  match s with
  | EmptyString => Some []
  | String c s' =>
      if Ascii.eqb c "/"%char
      then let (t, ts) := pointer_tokens s' in Some (t :: ts)
      else None
  end.

Definition pointer_field (k : string) (d : list (string * json))
  : option (list string) :=
  match dict_lookup k d with
  | Some (JStr s) => parse_pointer s
  | _ => None
  end.

(** The operation an object of the patch array stands for. *)
Definition json_op (j : json) : option op :=
  match j with
  | JObj d =>
      match dict_lookup "op" d, pointer_field "path" d with
      | Some (JStr o), Some p =>
          if String.eqb o "add"
          then option_map (OpAdd p) (dict_lookup "value" d)
          else if String.eqb o "remove" then Some (OpRemove p)
          else if String.eqb o "replace"
          then option_map (OpReplace p) (dict_lookup "value" d)
          else if String.eqb o "move"
          then option_map (fun from => OpMove from p) (pointer_field "from" d)
          else None
      | _, _ => None
      end
  | _ => None
  end.

Fixpoint map_option {A B} (f : A -> option B) (l : list A) : option (list B) :=
  match l with
  | [] => Some []
  | x :: l' =>
      match f x, map_option f l' with
      | Some y, Some ys => Some (y :: ys)
      | _, _ => None
      end
  end.

(** The patch a response carries in its [patch] field. *)
Definition decode_patch0 (text : string) : option (list op) :=
  match std_b64decode text with
  | Some t =>
      match loads t with
      | Some (JArr xs) => map_option json_op xs
      | _ => None
      end
  | None => None
  end.

(** What may follow a number in a text: not a sign and not a digit. *)
Definition ends_number (rest : string) : Prop :=
  match rest with
  | EmptyString => True
  | String c _ => is_num_char c = false
  end.

(** The handler with this configuration and this library. *)
Definition handler0 (body : json) (w : World) : result json * (store * World) :=
  handler cfg0 root_diff patch_text std_b64encode body w.

(** A world without faults: the cluster holds [cl], the remote source
    answers [status] with [bytes]. *)
Definition quiet (cl : list ConfigMap) (status : Z) (bytes : string) : World :=
  {| cluster := cl; calls := [];
     read_fault := None; create_fault := None;
     remote := fun _ => inr {| status_code := status; content := bytes |} |}.

(** A world in which the read is refused (403) while the remote source and
    the create call work. *)
Definition w_forbidden : World :=
  {| cluster := []; calls := [];
     read_fault := Some (ApiException 403); create_fault := None;
     remote := fun _ => inr {| status_code := 200; content := "PEM" |} |}.

(** A world whose cluster is that of [w], in which the next read fails
    with [e]. *)
Definition with_read_fault (e : exn) (w : World) : World :=
  {| cluster := cluster w; calls := calls w;
     read_fault := Some e; create_fault := create_fault w;
     remote := remote w |}.

(** A pod of namespace [ns1] with the given annotations and [spec], and the
    review request that carries an object. *)
Definition pod (annotations : list (string * json)) (spec : list (string * json)) : json :=
  JObj [("metadata", JObj [("annotations", JObj annotations);
                           ("namespace", JStr "ns1")]);
        ("spec", JObj spec)].

Definition admission (object : json) : json :=
  JObj [("request", JObj [("uid", JStr "u-1"); ("object", object)])].

Definition triggered : list (string * json) := [("ca-injector/inject", JStr "true")].

Definition app_container : json := JObj [("name", JStr "app")].

Definition sidecar_container : json :=
  JObj [("name", JStr "sidecar");
        ("volumeMounts", JArr [JObj [("name", JStr "data"); ("mountPath", JStr "/data")]])].

(** A triggered pod with two containers, one of which has a mount. *)
Definition two_containers : json :=
  pod triggered [("containers", JArr [app_container; sidecar_container])].

(** ** The helpers of [test_app.py] *)

(** A response as the test client shows it: its status code and its parsed
    JSON body. *)
Record TestResponse : Type := {
  response_status_code : Z;
  response_json : json
}.

(** What a view that returns [jsonify(x)] answers: status 200 and a body
    with the members of [x]. The order of the members in the body is not
    relied on. *)
Definition jsonify (x : json) : TestResponse :=
  {| response_status_code := 200; response_json := x |}.

(** [v is True]. *)
Definition is_True (v : json) : bool :=
  match v with JBool true => true | _ => false end.

(** [allowed(response)]:
    [response.status_code == 200 and response.json["response"]["allowed"] is True]. *)
Definition allowed (response : TestResponse) : result bool :=
  if Z.eqb (response_status_code response) 200
  then rbind (py_getitem (response_json response) "response") (fun r =>
       rbind (py_getitem r "allowed") (fun a => Ok (is_True a)))
  else Ok false.

(** [valid(response)]:
    [{"uid", "allowed"} <= response.json["response"].keys()]. *)
Definition valid (response : TestResponse) : result bool :=
  rbind (py_getitem (response_json response) "response") (fun r =>
  match r with
  | JObj d => Ok (dict_mem "uid" d && dict_mem "allowed" d)
  | _ => Raise AttributeError
  end).

(** ** Reading a request *)

(** The namespace [ensure] is called with: that of the object, when the
    annotation triggers the mutation and the object has one. *)
Definition trigger_namespace (cfg : Config) (body : json) : option json :=
  match the_object body with
  | Ok obj =>
      match the_annotation cfg obj with
      | Ok a =>
          if eq_str a "true"
          then match the_namespace obj with
               | Ok namespace => Some namespace
               | Raise _ => None
               end
          else None
      | Raise _ => None
      end
  | Raise _ => None
  end.

(** The ConfigMap [create_configmap] asks for. *)
Definition bundle_configmap (cfg : Config) (namespace : json) (bundle : string)
    : ConfigMap :=
  {| cm_namespace := namespace;
     cm_name := configmap_name cfg;
     cm_data := [(ca_bundle_filename cfg, bundle)] |}.

(** The pods lines 68 to 84 go through. A container can take the mount
    when it is a dict whose [volumeMounts], if any, is a list. *)
Definition mountable (c : json) : bool :=
  match c with
  | JObj d => match dict_lookup "volumeMounts" d with
              | None => true
              | Some (JArr _) => true
              | Some _ => false
              end
  | _ => false
  end.

(** A loop goes through a list of such containers, and through what has
    nothing to iterate over: an empty dict, an empty [str]. *)
Definition loop_ok (v : json) : bool :=
  match v with
  | JArr xs => forallb mountable xs
  | JObj [] => true
  | JStr EmptyString => true
  | _ => false
  end.

Definition pod_ok (d : json) : bool :=
  match spec_field "volumes" d with
  | None => true
  | Some (JArr _) => true
  | Some _ => false
  end
  && match spec_field "initContainers" d with
     | None => true
     | Some v => loop_ok v
     end
  && match spec_field "containers" d with
     | None => false
     | Some v => loop_ok v
     end.

(** [c'] is [c] but for its [volumeMounts]. *)
Definition same_but_mounts (c c' : json) : Prop :=
  forall k, k <> "volumeMounts" -> py_getitem c' k = py_getitem c k.

(** [c'] has the mounts of [c], and then the mount of the bundle twice. *)
Definition mounted_twice (cfg : Config) (c c' : json) : Prop :=
  mounts_of c' = mounts_of c ++ [volume_mount cfg; volume_mount cfg].

(** The calls of a full provisioning, in order. *)
Definition provisioning_calls (cfg : Config) (namespace : json) : list call :=
  [CallRead namespace (configmap_name cfg);
   CallFetch (ca_bundle_url cfg);
   CallCreate (namespace) (configmap_name cfg)].

(** A world in which the ConfigMap is there and the read is answered. *)
Definition provisioned : World :=
  quiet [bundle_configmap cfg0 (JStr "ns1") "PEM"] 200 "PEM".

(** A review request without [uid]. *)
Definition admission_without_uid (object : json) : json :=
  JObj [("request", JObj [("object", object)])].

(** The two-container pod as one injection leaves it. *)
Definition two_containers_injected : json :=
  pod triggered
    [("containers",
      JArr [JObj [("name", JStr "app");
                  ("volumeMounts", JArr [volume_mount cfg0])];
            JObj [("name", JStr "sidecar");
                  ("volumeMounts",
                   JArr [JObj [("name", JStr "data"); ("mountPath", JStr "/data")];
                         volume_mount cfg0])]]);
     ("volumes", JArr [volume cfg0])].

(** A triggered pod whose [spec.volumes] is [null]. *)
Definition null_volumes : json :=
  pod triggered [("volumes", JNull); ("containers", JArr [app_container])].

(** * Part 2: properties *)

(** Case analysis on the outcome of each operation on values, in the order
    in which the goal meets them. *)
Ltac case_on_values :=
  repeat (cbn;
          match goal with
          | |- ?l = ?l => reflexivity
          | H : ?t = _ |- context [?t] => rewrite H
          | |- context [py_getitem ?a ?k] => destruct (py_getitem a k) eqn:?
          | |- context [py_get ?a ?k] => destruct (py_get a k) eqn:?
          | |- context [py_contains ?k ?a] => destruct (py_contains k a) eqn:?
          | |- context [py_append ?v ?a] => destruct (py_append v a) eqn:?
          | |- context [py_setitem ?k ?v ?a] => destruct (py_setitem k v a) eqn:?
          | |- context [py_for ?f ?a] => destruct (py_for f a) eqn:?
          | |- context [if ?b then _ else _] => is_var b; destruct b
          end).

(** ** Equality of documents *)

Lemma json_eqb_refl : forall a, json_eqb a a = true.
Proof.
  induction a using json_deep_ind; simpl.
  - reflexivity.
  - apply Bool.eqb_reflx.
  - apply Z.eqb_refl.
  - apply String.eqb_refl.
  - induction H as [|x l Hx _ IH]; [reflexivity|]. now rewrite Hx, IH.
  - induction H as [|[k x] l Hx _ IH]; [reflexivity|].
    simpl in Hx. now rewrite String.eqb_refl, Hx, IH.
Qed.

Lemma json_eqb_eq : forall a b, json_eqb a b = true -> a = b.
Proof.
  induction a using json_deep_ind; intros [] E; simpl in E; try discriminate.
  - reflexivity.
  - f_equal. now apply Bool.eqb_prop.
  - f_equal. now apply Z.eqb_eq.
  - f_equal. now apply String.eqb_eq.
  - f_equal. revert xs0 E.
    induction H as [|x l Hx _ IH]; intros [|y r] E; try discriminate; [reflexivity|].
    apply andb_prop in E as [E1 E2]. f_equal; auto.
  - f_equal. revert kvs0 E.
    induction H as [|[k x] l Hx _ IH]; intros [|[k' y] r] E;
      try discriminate; [reflexivity|].
    apply andb_prop in E as [E1 E3]. apply andb_prop in E1 as [E1 E2].
    apply String.eqb_eq in E1. simpl in Hx. f_equal; [f_equal|]; auto.
Qed.

(** ** Dictionaries and values *)

Lemma dict_lookup_set_eq {V} k (v : V) d : dict_lookup k (dict_set k v d) = Some v.
Proof.
  induction d as [|[k' v'] d IH]; simpl.
  - now rewrite String.eqb_refl.
  - destruct (String.eqb k k') eqn:E; simpl; rewrite ?String.eqb_refl, ?E; auto.
Qed.

Lemma dict_lookup_set_ne {V} k k' (v : V) d :
  k <> k' -> dict_lookup k' (dict_set k v d) = dict_lookup k' d.
Proof.
  intros N. induction d as [|[k0 v0] d IH]; simpl.
  - destruct (String.eqb k' k) eqn:E; [|reflexivity].
    apply String.eqb_eq in E. congruence.
  - destruct (String.eqb k k0) eqn:E; simpl.
    + apply String.eqb_eq in E. subst k0.
      destruct (String.eqb k' k) eqn:E'; [|reflexivity].
      apply String.eqb_eq in E'. congruence.
    + now rewrite IH.
Qed.

Lemma dict_lookup_set {V} k k' (v : V) d :
  dict_lookup k' (dict_set k v d)
  = if String.eqb k k' then Some v else dict_lookup k' d.
Proof.
  destruct (String.eqb k k') eqn:E.
  - apply String.eqb_eq in E. subst. apply dict_lookup_set_eq.
  - apply String.eqb_neq in E. now apply dict_lookup_set_ne.
Qed.

Lemma mapR_Forall2 {A B} (f : A -> result B) l l' :
  mapR f l = Ok l' -> Forall2 (fun x y => f x = Ok y) l l'.
Proof.
  revert l'. induction l as [|x l IH]; simpl; intros l' H.
  - injection H as <-. constructor.
  - destruct (f x) as [y|] eqn:E; [|discriminate]. simpl in H.
    destruct (mapR f l) as [ys|]; [|discriminate]. simpl in H.
    injection H as <-. constructor; auto.
Qed.

Lemma eq_str_true a s : eq_str a s = true <-> a = JStr s.
Proof.
  destruct a; simpl; split; try discriminate.
  - intros E. apply String.eqb_eq in E. now subst.
  - intros E. injection E as ->. apply String.eqb_refl.
Qed.

Lemma eq_str_false a s : a <> JStr s -> eq_str a s = false.
Proof.
  intros N. destruct (eq_str a s) eqn:E; [|reflexivity].
  apply eq_str_true in E. contradiction.
Qed.

(** ** The store *)

Lemma nth_list_update_other (i j : nat) (x : json) (st : store) :
  i <> j -> nth i (list_update j x st) JNull = nth i st JNull.
Proof.
  revert i j. induction st as [|y st IH]; intros [|i] [|j] N; simpl;
    try reflexivity; try congruence.
  apply IH. congruence.
Qed.

(** A write through a reference leaves every other document as it is. *)
Lemma modify_other_document (r r' : ref) f (st : store) :
  fst r <> fst r' ->
  fst (load r (snd (modify r' f st))) = fst (load r st).
Proof.
  intros N. unfold modify, load.
  destruct (at_path (snd r') f (nth (fst r') st JNull)); simpl; [|reflexivity].
  now rewrite nth_list_update_other.
Qed.

Lemma list_update_nth_same (i : nat) (st : store) :
  list_update i (nth i st JNull) st = st.
Proof.
  revert i. induction st as [|x st IH]; intros [|i]; simpl; try reflexivity.
  now rewrite IH.
Qed.

(** ** The provisioner *)

Lemma has_cm_count namespace name cl :
  has_cm namespace name cl = negb (Nat.eqb (count_cm namespace name cl) 0).
Proof.
  unfold has_cm, count_cm. induction cl as [|cm cl IH]; simpl; [reflexivity|].
  destruct (is_cm namespace name cm); simpl; auto.
Qed.

Lemma count_cm_app namespace name cl cl' :
  count_cm namespace name (cl ++ cl') =
  count_cm namespace name cl + count_cm namespace name cl'.
Proof. unfold count_cm. now rewrite filter_app, length_app. Qed.

Lemma read_ok_inv namespace name w w' :
  read_namespaced_config_map namespace name w = (Ok tt, w') ->
  has_cm namespace name (cluster w) = true /\ w' = log (CallRead namespace name) w.
Proof.
  unfold read_namespaced_config_map.
  destruct (read_fault w); [discriminate|].
  destruct (has_cm namespace name (cluster w)); [|discriminate].
  intros E. injection E as <-. auto.
Qed.

Lemma create_ok_inv namespace body w w' :
  create_namespaced_config_map namespace body w = (Ok tt, w') ->
  has_cm namespace (cm_name body) (cluster w) = false /\
  cluster w' = cluster w ++ [body].
Proof.
  unfold create_namespaced_config_map.
  destruct (create_fault w); [discriminate|].
  destruct (has_cm namespace (cm_name body) (cluster w)); [discriminate|].
  intros E. injection E as <-. auto.
Qed.

Lemma create_configmap_ok_inv cfg namespace w w' :
  create_configmap cfg namespace w = (Ok tt, w') ->
  exists bundle,
    has_cm namespace (configmap_name cfg) (cluster w) = false /\
    cluster w' = cluster w ++ [{| cm_namespace := namespace;
                                  cm_name := configmap_name cfg;
                                  cm_data := [(ca_bundle_filename cfg, bundle)] |}].
Proof.
  unfold create_configmap, bind, requests_get.
  destruct (remote w (ca_bundle_url cfg)) as [e|r]; [discriminate|].
  destruct (negb (Z.eqb (status_code r) 200)); [discriminate|].
  unfold lift. destruct (decode_ascii (content r)) as [bundle|e]; [|discriminate].
  intros E. apply create_ok_inv in E as [E1 E2]. exists bundle. auto.
Qed.

(** What a call of [ensure] that returns leaves behind: the ConfigMap is
    there, once if it was there at most once. *)
Lemma ensure_ok_inv cfg namespace w w' :
  ensure cfg namespace w = (Ok tt, w') ->
  has_cm namespace (configmap_name cfg) (cluster w') = true /\
  count_cm namespace (configmap_name cfg) (cluster w')
  = Nat.max 1 (count_cm namespace (configmap_name cfg) (cluster w)).
Proof.
  unfold ensure, try_except_ApiException.
  destruct (read_namespaced_config_map namespace (configmap_name cfg) w)
    as [[[]|e] w1] eqn:R.
  - intros E. injection E as <-. apply read_ok_inv in R as [R ->]. simpl.
    split; [exact R|]. rewrite has_cm_count in R.
    destruct (count_cm namespace (configmap_name cfg) (cluster w)); [discriminate|lia].
  - destruct (is_ApiException e); [|discriminate]. intros C.
    assert (cluster w1 = cluster w) as Hw1.
    { unfold read_namespaced_config_map in R.
      destruct (read_fault w); [|destruct (has_cm _ _ _)]; now injection R as _ <-. }
    apply create_configmap_ok_inv in C as (bundle & C1 & C2).
    rewrite Hw1 in C1, C2. rewrite C2.
    assert (is_cm namespace (configmap_name cfg)
              {| cm_namespace := namespace; cm_name := configmap_name cfg;
                 cm_data := [(ca_bundle_filename cfg, bundle)] |} = true) as I.
    { unfold is_cm. simpl. now rewrite json_eqb_refl, String.eqb_refl. }
    split.
    + unfold has_cm. rewrite existsb_app. simpl. rewrite I. apply orb_true_r.
    + rewrite count_cm_app. rewrite has_cm_count in C1.
      destruct (count_cm namespace (configmap_name cfg) (cluster w)); [|discriminate].
      unfold count_cm. simpl. now rewrite I.
Qed.

Lemma create_configmap_fetches cfg namespace w :
  In (CallFetch (ca_bundle_url cfg)) (calls (snd (create_configmap cfg namespace w))).
Proof.
  unfold create_configmap, bind, requests_get.
  destruct (remote w (ca_bundle_url cfg)) as [e|r]; simpl.
  - apply in_or_app. right. now left.
  - destruct (negb (Z.eqb (status_code r) 200)); simpl.
    + apply in_or_app. right. now left.
    + unfold lift. destruct (decode_ascii (content r)); simpl.
      * unfold create_namespaced_config_map. simpl.
        destruct (create_fault w); [|destruct (has_cm _ _ _)]; simpl;
          apply in_or_app; left; apply in_or_app; right; now left.
      * apply in_or_app. right. now left.
Qed.


(** ** The statements of the handler, as changes of one document *)

Lemma add_volume_on_doc cfg i st :
  add_volume cfg (i, []) st = modify (i, []) (add_volume_doc cfg) st.
Proof.
  unfold add_volume, modify, add_volume_doc, subscript, contains, setitem,
    method_append, modify, load, bind, lift, ret.
  case_on_values.
Qed.

Lemma mount_init_containers_on_doc cfg i st :
  mount_init_containers cfg (i, []) st
  = modify (i, []) (mount_init_containers_doc cfg) st.
Proof.
  unfold mount_init_containers, modify, mount_init_containers_doc, subscript,
    contains, for_each, modify, load, bind, lift, ret.
  case_on_values; now rewrite list_update_nth_same.
Qed.

Lemma mount_containers_on_doc cfg i st :
  mount_containers cfg (i, []) st = modify (i, []) (mount_containers_doc cfg) st.
Proof.
  unfold mount_containers, modify, mount_containers_doc, subscript,
    for_each, modify, load, bind, lift, ret.
  case_on_values.
Qed.

(** The run of lines 42 to 84 on a request, outcome by outcome. *)
Lemma mutate_plan_start cfg body w :
  mutate_plan cfg request_json (start body w) =
  match the_object body with
  | Raise e => (Raise e, ([body], w))
  | Ok obj =>
      match the_annotation cfg obj with
      | Raise e => (Raise e, ([body; obj], w))
      | Ok a =>
          if eq_str a "true"
          then match the_namespace obj with
               | Raise e => (Raise e, ([body; obj], w))
               | Ok namespace =>
                   match ensure cfg namespace w with
                   | (Raise e, w') => (Raise e, ([body; obj], w'))
                   | (Ok _, w') =>
                       match inject_doc cfg obj with
                       | (Raise e, obj') => (Raise e, ([body; obj'], w'))
                       | (Ok _, obj') =>
                           (Ok (spec_ref, modified_spec_ref), ([body; obj'], w'))
                       end
                   end
               end
          else (Ok (spec_ref, modified_spec_ref), ([body; obj], w))
      end
  end.
Proof.
  unfold mutate_plan, the_object, the_annotation, the_namespace, start,
    request_json.
  unfold inject_doc.
  unfold on_store, on_world, subscript, deepcopy, method_get, alloc, load,
    bind, lift, ret.
  repeat (cbn -[add_volume_doc mount_init_containers_doc mount_containers_doc];
          match goal with
          | |- _ = _ => reflexivity
          | H : ?t = _ |- context [?t] => rewrite H
          | |- context [py_getitem ?a ?k] => destruct (py_getitem a k) eqn:?
          | |- context [py_get ?a ?k] => destruct (py_get a k) eqn:?
          | |- context [eq_str ?a ?k] => destruct (eq_str a k) eqn:?
          | |- context [ensure ?c ?n ?x] =>
              destruct (ensure c n x) as [[[]|?] ?] eqn:?
          | |- context [add_volume _ _ _] =>
              rewrite add_volume_on_doc; unfold modify
          | |- context [mount_init_containers _ _ _] =>
              rewrite mount_init_containers_on_doc; unfold modify
          | |- context [mount_containers _ _ _] =>
              rewrite mount_containers_on_doc; unfold modify
          | |- context [add_volume_doc ?c ?d] => destruct (add_volume_doc c d) eqn:?
          | |- context [mount_init_containers_doc ?c ?d] =>
              destruct (mount_init_containers_doc c d) eqn:?
          | |- context [mount_containers_doc ?c ?d] =>
              destruct (mount_containers_doc c d) eqn:?
          end).
Qed.

(** A run of lines 42 to 84 that returns. *)
Lemma mutate_plan_ok_inv cfg body w refs s' :
  mutate_plan cfg request_json (start body w) = (Ok refs, s') ->
  exists obj a,
    the_object body = Ok obj /\ the_annotation cfg obj = Ok a /\
    refs = (spec_ref, modified_spec_ref) /\
    ((eq_str a "true" = false /\ s' = ([body; obj], w)) \/
     (eq_str a "true" = true /\
      exists namespace w' obj',
        the_namespace obj = Ok namespace /\
        ensure cfg namespace w = (Ok tt, w') /\
        inject_doc cfg obj = (Ok tt, obj') /\
        s' = ([body; obj'], w'))).
Proof.
  rewrite mutate_plan_start. intros H.
  destruct (the_object body) as [obj|] eqn:Ho; [|discriminate].
  destruct (the_annotation cfg obj) as [a|] eqn:Ha; [|discriminate].
  exists obj, a. split; [reflexivity|]. split; [exact Ha|].
  destruct (eq_str a "true").
  - destruct (the_namespace obj) as [namespace|] eqn:Hn; [|discriminate].
    destruct (ensure cfg namespace w) as [[[]|] w'] eqn:E; [|discriminate].
    destruct (inject_doc cfg obj) as [[[]|] obj'] eqn:I; [|discriminate].
    injection H as <- <-. split; [reflexivity|].
    right. split; [reflexivity|]. now exists namespace, w', obj'.
  - injection H as <- <-. split; [reflexivity|]. left. auto.
Qed.

(** Every run of lines 42 to 84 leaves the parsed body in place, as the
    first document of the store. *)
Lemma mutate_plan_keeps_body cfg body w :
  exists rest,
    fst (snd (mutate_plan cfg request_json (start body w))) = body :: rest.
Proof.
  rewrite mutate_plan_start.
  destruct (the_object body) as [obj|]; [|now eexists].
  destruct (the_annotation cfg obj) as [a|]; [|now eexists].
  destruct (eq_str a "true"); [|now eexists].
  destruct (the_namespace obj) as [namespace|]; [|now eexists].
  destruct (ensure cfg namespace w) as [[[]|] w']; [|now eexists].
  destruct (inject_doc cfg obj) as [[[]|] obj']; now eexists.
Qed.

Section Runs.
Variable cfg : Config.
Variable from_diff : json -> json -> list op.
Variable str_patch : list op -> string.
Variable b64encode : string -> string.

(** The rest of the handler, after lines 42 to 84 returned. *)
Lemma mutate_after_plan body w obj obj' w' :
  the_object body = Ok obj ->
  mutate_plan cfg request_json (start body w)
  = (Ok (spec_ref, modified_spec_ref), ([body; obj'], w')) ->
  handler cfg from_diff str_patch b64encode body w
  = match the_uid body with
    | Ok uid =>
        (Ok (review str_patch b64encode uid (from_diff obj obj')),
         ([body; obj'], w'))
    | Raise e => (Raise e, ([body; obj'], w'))
    end.
Proof.
  intros Ho Hp. unfold handler, mutate. unfold bind at 1. rewrite Hp.
  unfold the_object, the_uid in *.
  unfold on_store, subscript, load, bind, lift, ret. cbn in Ho.
  destruct (py_getitem body "request") as [rq|] eqn:E1; cbn in Ho; [|discriminate].
  destruct (py_getitem rq "object") as [o|] eqn:E2; cbn in Ho; [|discriminate].
  injection Ho as ->.
  repeat (cbn;
          match goal with
          | |- _ = _ => reflexivity
          | H : ?t = _ |- context [?t] => rewrite H
          | |- context [py_getitem ?a ?k] => destruct (py_getitem a k) eqn:?
          end).
Qed.

Lemma mutate_plan_raise body w e s :
  mutate_plan cfg request_json (start body w) = (Raise e, s) ->
  handler cfg from_diff str_patch b64encode body w = (Raise e, s).
Proof. intros Hp. unfold handler, mutate. unfold bind at 1. now rewrite Hp. Qed.

(** A request the handler answers. *)
Lemma handler_ok_inv body w resp s' :
  handler cfg from_diff str_patch b64encode body w = (Ok resp, s') ->
  exists obj obj' uid w',
    the_object body = Ok obj /\ the_uid body = Ok uid /\
    mutate_plan cfg request_json (start body w)
    = (Ok (spec_ref, modified_spec_ref), ([body; obj'], w')) /\
    s' = ([body; obj'], w') /\
    resp = review str_patch b64encode uid (from_diff obj obj').
Proof.
  intros H.
  destruct (mutate_plan cfg request_json (start body w)) as [[refs|e] s] eqn:P.
  - pose proof P as P'.
    apply mutate_plan_ok_inv in P' as (obj & a & Ho & _ & -> & Hs).
    assert (exists obj' w', s = ([body; obj'], w')) as (obj' & w' & ->).
    { destruct Hs as [[_ ->]|[_ (ns & w' & obj' & _ & _ & _ & ->)]]; eauto. }
    rewrite (mutate_after_plan _ _ _ _ _ Ho P) in H.
    destruct (the_uid body) as [uid|] eqn:Hu; [|discriminate].
    injection H as <- <-. now exists obj, obj', uid, w'.
  - rewrite (mutate_plan_raise _ _ _ _ P) in H. discriminate.
Qed.

(** The run of a triggered request that the handler answers. *)
Lemma handler_triggered_inv body w resp s' obj :
  the_object body = Ok obj ->
  the_annotation cfg obj = Ok (JStr "true") ->
  handler cfg from_diff str_patch b64encode body w = (Ok resp, s') ->
  exists uid obj' w',
    inject_doc cfg obj = (Ok tt, obj') /\
    s' = ([body; obj'], w') /\
    resp = review str_patch b64encode uid (from_diff obj obj').
Proof.
  intros Ho Ha H. apply handler_ok_inv in H
    as (obj0 & obj' & uid & w' & Ho' & Hu & Hp & -> & ->).
  rewrite Ho in Ho'. injection Ho' as <-.
  apply mutate_plan_ok_inv in Hp as (obj1 & a & Ho1 & Ha1 & _ & Hs).
  rewrite Ho in Ho1. injection Ho1 as <-.
  rewrite Ha in Ha1. injection Ha1 as <-.
  destruct Hs as [[E _]|[_ (ns & w1 & obj1 & _ & _ & Hi & E)]]; [discriminate|].
  injection E as -> ->. now exists uid, obj1, w1.
Qed.

End Runs.

(** ** What the three statements do to a pod document *)

Lemma at_spec_field_ok field g d d' :
  at_path ["spec"; field] g d = Ok d' ->
  exists v v',
    spec_field field d = Some v /\ g v = Ok v' /\ sets_spec_field field v' d d'.
Proof.
  unfold sets_spec_field, spec_field. cbn.
  destruct d as [| | | | |o]; try discriminate. cbn.
  destruct (dict_lookup "spec" o) as [sp|] eqn:Hsp; [|discriminate]. cbn.
  destruct sp as [| | | | |s]; try discriminate. cbn.
  destruct (dict_lookup field s) as [v|] eqn:Hf; [|discriminate]. cbn.
  destruct (g v) as [v'|] eqn:Hg; [|discriminate]. cbn.
  intros H. injection H as <-. exists v, v'. repeat split; auto.
  intros f. cbn. rewrite dict_lookup_set_eq. cbn. rewrite dict_lookup_set.
  destruct (String.eqb field f); [reflexivity|].
  now destruct (dict_lookup f s).
Qed.

Lemma set_spec_field_ok field v d d' :
  at_path ["spec"] (py_setitem field v) d = Ok d' -> sets_spec_field field v d d'.
Proof.
  unfold sets_spec_field, spec_field. cbn.
  destruct d as [| | | | |o]; try discriminate. cbn.
  destruct (dict_lookup "spec" o) as [sp|] eqn:Hsp; [|discriminate]. cbn.
  destruct sp as [| | | | |s]; try discriminate. cbn.
  intros H. injection H as <-. intros f. cbn.
  rewrite dict_lookup_set_eq. cbn. rewrite dict_lookup_set.
  destruct (String.eqb field f); [reflexivity|].
  now destruct (dict_lookup f s).
Qed.

(** The loop body appends one mount to the mounts of a container, or
    creates the sequence with that one mount. *)
Lemma add_volume_mount_ok cfg c c' :
  add_volume_mount cfg c = Ok c' ->
  mounts_of c' = mounts_of c ++ [volume_mount cfg].
Proof.
  unfold add_volume_mount, mounts_of.
  destruct c as [| | |s|xs|d]; try discriminate; cbn.
  - destruct (str_contains "volumeMounts" s); discriminate.
  - destruct (existsb _ xs); discriminate.
  - unfold dict_mem.
    destruct (dict_lookup "volumeMounts" d) as [ms|] eqn:E; cbn.
    + destruct ms as [| | | |ms|]; try discriminate. cbn.
      intros H. injection H as <-. cbn. now rewrite dict_lookup_set_eq.
    + intros H. injection H as <-. cbn. now rewrite dict_lookup_set_eq.
Qed.

Lemma py_for_ok cfg v v' :
  py_for (add_volume_mount cfg) v = Ok v' ->
  Forall2 (mounted cfg) (entries (Some v)) (entries (Some v')).
Proof.
  unfold py_for. destruct v as [| | |s|xs|d]; try discriminate; cbn.
  - destruct (mapR _ _); [|discriminate]. intros H. injection H as <-. constructor.
  - destruct (mapR _ xs) as [xs'|] eqn:E; [|discriminate]. cbn.
    intros H. injection H as <-. cbn.
    apply mapR_Forall2 in E.
    induction E; constructor; auto. now apply (add_volume_mount_ok cfg).
  - destruct (mapR _ _); [|discriminate]. intros H. injection H as <-. constructor.
Qed.

Lemma add_volume_doc_ok cfg d d1 :
  add_volume_doc cfg d = Ok d1 ->
  sets_spec_field "volumes" (JArr (volumes_of d ++ [volume cfg])) d d1.
Proof.
  unfold add_volume_doc.
  destruct (py_getitem d "spec") as [sp|] eqn:Hsp; [|discriminate]. cbn.
  destruct (py_contains "volumes" sp) as [[]|] eqn:Hc; [| |discriminate]; cbn.
  - intros H. apply at_spec_field_ok in H as (v & v' & Hv & Ha & Hs).
    unfold volumes_of. rewrite Hv.
    destruct v; try discriminate. cbn in *. now injection Ha as <-.
  - intros H. apply set_spec_field_ok in H.
    replace (volumes_of d) with (@nil json); [exact H|].
    unfold volumes_of, spec_field. cbn. rewrite Hsp. cbn.
    destruct sp as [| | |s|xs|o]; try reflexivity; cbn in *.
    unfold dict_mem in Hc. destruct (dict_lookup "volumes" o); [discriminate|reflexivity].
Qed.

Lemma mount_init_containers_doc_ok cfg d d' :
  mount_init_containers_doc cfg d = Ok d' ->
  (spec_field "initContainers" d = None /\ d' = d) \/
  (exists v v',
      spec_field "initContainers" d = Some v /\
      py_for (add_volume_mount cfg) v = Ok v' /\
      sets_spec_field "initContainers" v' d d').
Proof.
  unfold mount_init_containers_doc.
  destruct (py_getitem d "spec") as [sp|] eqn:Hsp; [|discriminate]. cbn.
  destruct (py_contains "initContainers" sp) as [[]|] eqn:Hc; [| |discriminate]; cbn.
  - intros H. right. now apply at_spec_field_ok.
  - intros H. injection H as <-. left. split; [|reflexivity].
    unfold spec_field. cbn. rewrite Hsp. cbn.
    destruct sp as [| | |s|xs|o]; try reflexivity; cbn in *.
    unfold dict_mem in Hc.
    destruct (dict_lookup "initContainers" o); [discriminate|reflexivity].
Qed.

Lemma mount_containers_doc_ok cfg d d' :
  mount_containers_doc cfg d = Ok d' ->
  exists v v',
    spec_field "containers" d = Some v /\
    py_for (add_volume_mount cfg) v = Ok v' /\
    sets_spec_field "containers" v' d d'.
Proof. apply at_spec_field_ok. Qed.

(** The document the three statements leave, when all three return: one
    more volume, at the end; one more mount, at the end, in every
    container and init-container. *)
Lemma inject_doc_ok cfg d d' :
  inject_doc cfg d = (Ok tt, d') ->
  volumes_of d' = volumes_of d ++ [volume cfg]
  /\ spec_field "volumes" d' = Some (JArr (volumes_of d ++ [volume cfg]))
  /\ Forall2 (mounted cfg) (containers_of "containers" d) (containers_of "containers" d')
  /\ Forall2 (mounted cfg) (containers_of "initContainers" d)
       (containers_of "initContainers" d').
Proof.
  unfold inject_doc.
  destruct (add_volume_doc cfg d) as [d1|] eqn:H1; [|discriminate].
  destruct (mount_init_containers_doc cfg d1) as [d2|] eqn:H2; [|discriminate].
  destruct (mount_containers_doc cfg d2) as [d3|] eqn:H3; [|discriminate].
  intros H. injection H as <-.
  apply add_volume_doc_ok in H1.
  apply mount_init_containers_doc_ok in H2.
  apply mount_containers_doc_ok in H3 as (cv & cv' & Hc & Hfor & H3).
  unfold volumes_of, containers_of.
  assert (spec_field "volumes" d2 = spec_field "volumes" d1
          /\ spec_field "containers" d2 = spec_field "containers" d1
          /\ Forall2 (mounted cfg) (entries (spec_field "initContainers" d1))
               (entries (spec_field "initContainers" d2))) as (V2 & C2 & I2).
  { destruct H2 as [[Hn ->]|(iv & iv' & Hi & Hfi & H2)].
    - repeat split. rewrite Hn. constructor.
    - rewrite !H2, Hi. cbn. repeat split. now apply py_for_ok. }
  rewrite !H3. cbn. rewrite V2, H1. cbn. repeat split.
  - rewrite C2, H1 in Hc. cbn in Hc. rewrite Hc. now apply (py_for_ok cfg cv cv').
  - rewrite H1 in I2. exact I2.
Qed.

(** Up to the loop over [containers], [spec.containers] is as in the
    object, and [spec.volumes] is there. *)
Lemma fields_before_containers cfg d d1 d2 :
  add_volume_doc cfg d = Ok d1 ->
  mount_init_containers_doc cfg d1 = Ok d2 ->
  spec_field "containers" d2 = spec_field "containers" d
  /\ spec_field "volumes" d2 = Some (JArr (volumes_of d ++ [volume cfg])).
Proof.
  intros H1 H2. apply add_volume_doc_ok in H1.
  apply mount_init_containers_doc_ok in H2.
  destruct H2 as [[_ ->]|(iv & iv' & _ & _ & H2)].
  - now rewrite !H1.
  - now rewrite !H2, !H1.
Qed.

(** On a document whose [spec] is a dict without [containers], line 80
    raises [KeyError]. *)
Lemma mount_containers_doc_absent cfg d v :
  spec_field "volumes" d = Some v ->
  spec_field "containers" d = None ->
  mount_containers_doc cfg d = Raise (KeyError "containers").
Proof.
  unfold spec_field, mount_containers_doc. cbn.
  destruct d as [| | | | |o]; try discriminate. cbn.
  destruct (dict_lookup "spec" o) as [sp|]; [|discriminate]. cbn.
  destruct sp as [| | | | |s]; try discriminate. cbn.
  intros _. now destruct (dict_lookup "containers" s).
Qed.

(** ** The library the response is built with, as an instance *)

Lemma root_diff_same a : root_diff a a = [].
Proof. unfold root_diff. now rewrite json_eqb_refl. Qed.

Lemma root_diff_sound a b : apply_patch (root_diff a b) a = Some b.
Proof.
  unfold root_diff. destruct (json_eqb a b) eqn:E; [|reflexivity].
  apply json_eqb_eq in E. now subst.
Qed.

(** ** Reading the patch back: [decode_patch0] inverts the encoding *)

Lemma append_assoc (a b c : string) :
  String.append (String.append a b) c = String.append a (String.append b c).
Proof. induction a as [|x a IH]; simpl; [reflexivity|now rewrite IH]. Qed.

Lemma append_nil_r (a : string) : String.append a EmptyString = a.
Proof. induction a as [|x a IH]; simpl; [reflexivity|now rewrite IH]. Qed.

Lemma length_append (a b : string) :
  String.length (String.append a b) = String.length a + String.length b.
Proof. induction a as [|x a IH]; simpl; [reflexivity|now rewrite IH]. Qed.

(** *** base64 *)

Lemma b64_index_char n : n < 64 -> b64_index (b64_char n) = Some n.
Proof.
  intros H. do 64 (destruct n as [|n]; [reflexivity|]). lia.
Qed.

Lemma b64_char_not_pad n : n < 64 -> Ascii.eqb (b64_char n) "="%char = false.
Proof.
  intros H. do 64 (destruct n as [|n]; [reflexivity|]). lia.
Qed.

(** Arithmetic on bytes, carried over to [Z]. *)
Ltac byte_arith :=
  intros;
  repeat match goal with
         | H : _ < 256 |- _ => apply Nat2Z.inj_lt in H
         end;
  repeat split; (apply Nat2Z.inj_lt || apply Nat2Z.inj);
  repeat rewrite ?Nat2Z.inj_add, ?Nat2Z.inj_mul, ?Nat2Z.inj_div, ?Nat2Z.inj_mod;
  repeat match goal with
         | |- context [Z.of_nat ?a] =>
             is_var a; pose proof (Nat2Z.is_nonneg a);
             generalize dependent (Z.of_nat a); intros
         end;
  simpl Z.of_nat; Z.to_euclidean_division_equations; lia.

Lemma b64_one_byte a :
  a < 256 ->
  a / 4 < 64 /\ a mod 4 * 16 < 64 /\ a / 4 * 4 + a mod 4 * 16 / 16 = a.
Proof. byte_arith. Qed.

Lemma b64_two_bytes a b :
  a < 256 -> b < 256 ->
  a / 4 < 64 /\ a mod 4 * 16 + b / 16 < 64 /\ b mod 16 * 4 < 64
  /\ a / 4 * 4 + (a mod 4 * 16 + b / 16) / 16 = a
  /\ (a mod 4 * 16 + b / 16) mod 16 * 16 + b mod 16 * 4 / 4 = b.
Proof. byte_arith. Qed.

Lemma b64_three_bytes a b c :
  a < 256 -> b < 256 -> c < 256 ->
  a / 4 < 64 /\ a mod 4 * 16 + b / 16 < 64
  /\ b mod 16 * 4 + c / 64 < 64 /\ c mod 64 < 64
  /\ a / 4 * 4 + (a mod 4 * 16 + b / 16) / 16 = a
  /\ (a mod 4 * 16 + b / 16) mod 16 * 16 + (b mod 16 * 4 + c / 64) / 4 = b
  /\ (b mod 16 * 4 + c / 64) mod 4 * 64 + c mod 64 = c.
Proof. byte_arith. Qed.

Lemma b64_bytes_groups bytes :
  Forall (fun b => b < 256) bytes -> b64_bytes (b64_groups bytes) = Some bytes.
Proof.
  remember (List.length bytes) as n eqn:Hn.
  assert (List.length bytes <= n) as Hle by lia. clear Hn.
  revert bytes Hle. induction n as [|n IH]; intros bytes Hle Hb.
  - destruct bytes; [reflexivity|simpl in Hle; lia].
  - destruct bytes as [|a [|b [|c rest]]]; [reflexivity| | |].
    + inversion Hb as [|? ? Ha _]; subst.
      destruct (b64_one_byte a Ha) as (H1 & H2 & E).
      cbn [b64_groups b64_bytes].
      rewrite (b64_index_char _ H1), (b64_index_char _ H2).
      rewrite !Ascii.eqb_refl. now rewrite E.
    + inversion Hb as [|? ? Ha Hb']; subst.
      inversion Hb' as [|? ? Hb0 _]; subst.
      destruct (b64_two_bytes a b Ha Hb0) as (H1 & H2 & H3 & E1 & E2).
      cbn [b64_groups b64_bytes].
      rewrite (b64_index_char _ H1), (b64_index_char _ H2),
        (b64_char_not_pad _ H3), (b64_index_char _ H3).
      rewrite !Ascii.eqb_refl. now rewrite E1, E2.
    + inversion Hb as [|? ? Ha Hb']; subst.
      inversion Hb' as [|? ? Hb0 Hb'']; subst.
      inversion Hb'' as [|? ? Hc Hrest]; subst.
      destruct (b64_three_bytes a b c Ha Hb0 Hc)
        as (H1 & H2 & H3 & H4 & E1 & E2 & E3).
      cbn [b64_groups b64_bytes].
      rewrite (b64_index_char _ H1), (b64_index_char _ H2),
        (b64_char_not_pad _ H3), (b64_index_char _ H3),
        (b64_char_not_pad _ H4), (b64_index_char _ H4).
      rewrite IH by (simpl in Hle; auto; lia).
      now rewrite E1, E2, E3.
Qed.

Lemma nat_of_ascii_lt c : nat_of_ascii c < 256.
Proof. destruct c as [[] [] [] [] [] [] [] []]; vm_compute; lia. Qed.

Lemma std_b64decode_encode s : std_b64decode (std_b64encode s) = Some s.
Proof.
  unfold std_b64decode, std_b64encode.
  rewrite list_ascii_of_string_of_list_ascii, b64_bytes_groups.
  - rewrite map_map. f_equal.
    rewrite <- (string_of_list_ascii_of_string s) at 2. f_equal.
    induction (list_ascii_of_string s) as [|c l IH]; simpl; [reflexivity|].
    now rewrite ascii_nat_embedding, IH.
  - apply Forall_forall. intros b Hb. apply in_map_iff in Hb as (c & <- & _).
    apply nat_of_ascii_lt.
Qed.

(** *** JSON text *)

Lemma parse_string_escape s r :
  parse_string (String.append (escape s) (String quote_char r)) = Some (s, r).
Proof.
  induction s as [|c s IH]; [reflexivity|].
  cbn [escape].
  destruct (Ascii.eqb c quote_char) eqn:Eq; cbn [orb].
  - cbn [String.append parse_string]. rewrite Eq, IH.
    replace (Ascii.eqb backslash_char quote_char) with false by reflexivity.
    replace (Ascii.eqb backslash_char backslash_char) with true by reflexivity.
    reflexivity.
  - destruct (Ascii.eqb c backslash_char) eqn:Eb.
    + cbn [String.append parse_string]. rewrite IH.
      replace (Ascii.eqb backslash_char quote_char) with false by reflexivity.
      replace (Ascii.eqb backslash_char backslash_char) with true by reflexivity.
      reflexivity.
    + cbn [String.append parse_string]. now rewrite Eq, Eb, IH.
Qed.

Lemma span_num_uint d rest :
  ends_number rest ->
  span_num (String.append (NilEmpty.string_of_uint d) rest)
  = (NilEmpty.string_of_uint d, rest).
Proof.
  intros Hr. induction d; cbn [NilEmpty.string_of_uint String.append span_num];
    try (replace (is_num_char _) with true by reflexivity; now rewrite IHd).
  destruct rest as [|c r]; [reflexivity|].
  cbn [span_num]. simpl in Hr. now rewrite Hr.
Qed.

Lemma span_num_int n rest :
  ends_number rest ->
  span_num (String.append (NilZero.string_of_int (Z.to_int n)) rest)
  = (NilZero.string_of_int (Z.to_int n), rest).
Proof.
  intros Hr.
  assert (forall d, d <> Decimal.Nil ->
            span_num (String.append (NilZero.string_of_uint d) rest)
            = (NilZero.string_of_uint d, rest)) as Hu.
  { intros d Hd. destruct d; [congruence|..]; now apply span_num_uint. }
  destruct n as [|p|p]; cbn [Z.to_int NilZero.string_of_int].
  - apply Hu. discriminate.
  - apply Hu, Unsigned.to_uint_nonnil.
  - cbn [String.append span_num].
    replace (is_num_char "-") with true by reflexivity.
    rewrite Hu by apply Unsigned.to_uint_nonnil. reflexivity.
Qed.

Lemma number_head n :
  exists c s,
    NilZero.string_of_int (Z.to_int n) = String c s /\ is_num_char c = true.
Proof.
  assert (forall d, exists c s,
             NilZero.string_of_uint d = String c s /\ is_num_char c = true) as Hu.
  { intros d. destruct d; do 2 eexists; split; reflexivity. }
  destruct n as [|p|p]; cbn [Z.to_int NilZero.string_of_int]; try apply Hu.
  do 2 eexists. split; reflexivity.
Qed.

Lemma int_of_string_to_int n :
  NilZero.int_of_string (NilZero.string_of_int (Z.to_int n)) = Some (Z.to_int n).
Proof.
  apply NilZero.isi; destruct n as [|p|p]; cbn [Z.to_int]; try discriminate;
    intros E; injection E as E; now apply Unsigned.to_uint_nonnil in E.
Qed.

Lemma is_num_char_head c :
  is_num_char c = true ->
  Ascii.eqb c "]"%char = false /\ Ascii.eqb c "}"%char = false.
Proof.
  destruct c as [[] [] [] [] [] [] [] []]; intros H; try discriminate H;
    split; reflexivity.
Qed.

(** A value starts with a character that closes no sequence. *)
Lemma dumps_head j :
  exists c s,
    dumps j = String c s
    /\ Ascii.eqb c "]"%char = false /\ Ascii.eqb c "}"%char = false.
Proof.
  destruct j as [|[]|n|s|xs|kvs]; try (do 2 eexists; repeat split; reflexivity).
  destruct (number_head n) as (c & s & E & Hc).
  exists c, s. split; [exact E|]. now apply is_num_char_head.
Qed.

Lemma member_text_head kv :
  exists c s,
    member_text kv = String c s
    /\ Ascii.eqb c "]"%char = false /\ Ascii.eqb c "}"%char = false.
Proof. do 2 eexists. repeat split; reflexivity. Qed.

Lemma joined_head {A} (pr : A -> string) (Q : ascii -> Prop) xs :
  xs <> [] ->
  (forall x, exists c s, pr x = String c s /\ Q c) ->
  exists c s, joined pr xs = String c s /\ Q c.
Proof.
  intros Hne Hpr. destruct xs as [|x l]; [congruence|].
  destruct (Hpr x) as (c & s & E & Hc).
  destruct l; cbn [joined]; rewrite E; do 2 eexists; split; eauto; reflexivity.
Qed.

Lemma length_joined_member {A} (pr : A -> string) xs x :
  In x xs -> String.length (pr x) <= String.length (joined pr xs).
Proof.
  induction xs as [|y l IH]; [contradiction|].
  intros [->|Hin].
  - destruct l; cbn [joined]; rewrite ?length_append; lia.
  - destruct l as [|z l']; [contradiction|].
    change (joined pr (y :: z :: l'))
      with (String.append (pr y) (String.append ", " (joined pr (z :: l')))).
    rewrite !length_append. specialize (IH Hin). lia.
Qed.

Lemma length_joined_count {A} (pr : A -> string) xs :
  (forall x, 1 <= String.length (pr x)) ->
  List.length xs <= String.length (joined pr xs).
Proof.
  intros Hpr. induction xs as [|y l IH]; [simpl; lia|].
  destruct l as [|z l'].
  - simpl. apply Hpr.
  - change (joined pr (y :: z :: l'))
      with (String.append (pr y) (String.append ", " (joined pr (z :: l')))).
    rewrite !length_append. cbn [List.length] in *.
    pose proof (Hpr y). lia.
Qed.

Lemma dumps_arr xs :
  dumps (JArr xs) = String.append "[" (String.append (joined dumps xs) "]").
Proof.
  cbn [dumps]. do 2 f_equal.
  induction xs as [|x l IH]; [reflexivity|].
  destruct l as [|y l']; [reflexivity|].
  change (joined dumps (x :: y :: l'))
    with (String.append (dumps x) (String.append ", " (joined dumps (y :: l')))).
  rewrite <- IH. reflexivity.
Qed.

Lemma dumps_obj kvs :
  dumps (JObj kvs)
  = String.append "{" (String.append (joined member_text kvs) "}").
Proof.
  cbn [dumps]. do 2 f_equal.
  induction kvs as [|[k x] l IH]; [reflexivity|].
  destruct l as [|y l']; [reflexivity|].
  change (joined member_text ((k, x) :: y :: l'))
    with (String.append (member_text (k, x))
            (String.append ", " (joined member_text (y :: l')))).
  rewrite <- IH. reflexivity.
Qed.

(** The members [joined] writes are read back one by one. *)
Lemma parse_items_joined {A} (pr : A -> string)
    (pv : string -> option (A * string)) (close : ascii) xs :
  is_num_char close = false ->
  Ascii.eqb ","%char close = false ->
  xs <> [] ->
  Forall (fun x => forall rest,
              ends_number rest -> pv (String.append (pr x) rest) = Some (x, rest))
    xs ->
  forall n rest,
    List.length xs <= n ->
    parse_items pv close n (String.append (joined pr xs) (String close rest))
    = Some (xs, rest).
Proof.
  intros Hclose Hcomma Hne Hall.
  induction Hall as [|x l Hx Hl IH]; [congruence|].
  intros n rest Hn. destruct n as [|n]; [simpl in Hn; lia|].
  destruct l as [|y l'].
  - cbn [joined parse_items]. rewrite Hx by exact Hclose.
    now rewrite Ascii.eqb_refl.
  - change (joined pr (x :: y :: l'))
      with (String.append (pr x) (String.append ", " (joined pr (y :: l')))).
    rewrite append_assoc. cbn [parse_items].
    rewrite Hx by reflexivity.
    cbn [String.append]. rewrite Hcomma.
    replace (Ascii.eqb "," ",") with true by reflexivity.
    replace (Ascii.eqb " " " ") with true by reflexivity.
    rewrite IH; [reflexivity|discriminate|simpl in Hn |- *; lia].
Qed.

Lemma parse_member_text (pv : string -> option (json * string)) k v rest :
  pv (String.append (dumps v) rest) = Some (v, rest) ->
  parse_member pv (String.append (member_text (k, v)) rest) = Some ((k, v), rest).
Proof.
  intros Hv. unfold member_text, quoted. cbn [fst snd].
  cbn [String.append parse_member].
  replace (Ascii.eqb quote_char quote_char) with true by reflexivity.
  rewrite !append_assoc. cbn [String.append]. rewrite parse_string_escape.
  replace (Ascii.eqb ":" ":" && Ascii.eqb " " " ") with true by reflexivity.
  now rewrite Hv.
Qed.

Lemma parse_value_seq f c r (open close : ascii) :
  is_num_char open = false -> Ascii.eqb open quote_char = false ->
  Ascii.eqb c "]"%char = false -> Ascii.eqb c "}"%char = false ->
  parse_value (S f) (String "[" (String c r))
  = match parse_items (parse_value f) "]"%char f (String c r) with
    | Some (xs, r') => Some (JArr xs, r')
    | None => None
    end
  /\ parse_value (S f) (String "{" (String c r))
     = match parse_items (parse_member (parse_value f)) "}"%char f (String c r) with
       | Some (kvs, r') => Some (JObj kvs, r')
       | None => None
       end.
Proof.
  intros _ _ H1 H2. cbn [parse_value].
  replace (is_num_char "[") with false by reflexivity.
  replace (is_num_char "{") with false by reflexivity.
  replace (Ascii.eqb "[" quote_char) with false by reflexivity.
  replace (Ascii.eqb "{" quote_char) with false by reflexivity.
  replace (Ascii.eqb "[" "[") with true by reflexivity.
  replace (Ascii.eqb "{" "[") with false by reflexivity.
  replace (Ascii.eqb "{" "{") with true by reflexivity.
  now rewrite H1, H2.
Qed.

(** [parse_value] reads back what [dumps] writes. *)
Lemma parse_value_dumps j :
  forall fuel rest,
    String.length (dumps j) <= fuel ->
    ends_number rest ->
    parse_value fuel (String.append (dumps j) rest) = Some (j, rest).
Proof.
  induction j as [|b|n|s|xs IH|kvs IH] using json_deep_ind;
    intros fuel rest Hf Hr.
  - destruct fuel; [simpl in Hf; lia|reflexivity].
  - destruct fuel; [destruct b; simpl in Hf; lia|]. now destruct b.
  - destruct (number_head n) as (c & s & E & Hc).
    cbn [dumps] in *. destruct fuel; [rewrite E in Hf; simpl in Hf; lia|].
    pose proof (span_num_int n rest Hr) as Hs. rewrite E in Hs |- *.
    cbn [String.append parse_value] in *. rewrite Hc, Hs, <- E.
    now rewrite int_of_string_to_int, DecimalZ.of_to.
  - destruct fuel; [simpl in Hf; lia|].
    cbn [dumps]. unfold quoted. cbn [String.append parse_value].
    replace (is_num_char quote_char) with false by reflexivity.
    replace (Ascii.eqb quote_char quote_char) with true by reflexivity.
    rewrite append_assoc. cbn [String.append].
    now rewrite parse_string_escape.
  - rewrite dumps_arr in *.
    destruct fuel as [|f]; [simpl in Hf; lia|].
    destruct xs as [|x l]; [reflexivity|].
    cbn [String.append String.length] in Hf. rewrite length_append in Hf.
    cbn [String.length] in Hf. cbn [String.append].
    rewrite append_assoc. cbn [String.append].
    destruct (joined_head dumps
                (fun c => Ascii.eqb c "]"%char = false /\ Ascii.eqb c "}"%char = false)
                (x :: l)) as (c & s & E & Hc1 & Hc2);
      [discriminate|apply dumps_head|].
    pose proof (parse_items_joined dumps (parse_value f) "]"%char (x :: l)
                  eq_refl eq_refl) as Hitems.
    rewrite E in Hitems |- *. cbn [String.append] in *.
    rewrite (proj1 (parse_value_seq f c _ "["%char "]"%char
                      eq_refl eq_refl Hc1 Hc2)).
    rewrite Hitems; [reflexivity|discriminate| |].
    + apply Forall_forall. intros y Hy rest' Hr'.
      rewrite Forall_forall in IH. apply IH; [exact Hy| |exact Hr'].
      pose proof (length_joined_member dumps (x :: l) y Hy) as Hl.
      lia.
    + assert (forall y, 1 <= String.length (dumps y)) as Hne.
      { intros y. destruct (dumps_head y) as (c' & s' & -> & _). simpl. lia. }
      pose proof (length_joined_count dumps (x :: l) Hne) as Hl.
      lia.
  - rewrite dumps_obj in *.
    destruct fuel as [|f]; [simpl in Hf; lia|].
    destruct kvs as [|x l]; [reflexivity|].
    cbn [String.append String.length] in Hf. rewrite length_append in Hf.
    cbn [String.length] in Hf. cbn [String.append].
    rewrite append_assoc. cbn [String.append].
    destruct (joined_head member_text
                (fun c => Ascii.eqb c "]"%char = false /\ Ascii.eqb c "}"%char = false)
                (x :: l)) as (c & s & E & Hc1 & Hc2);
      [discriminate|apply member_text_head|].
    pose proof (parse_items_joined member_text (parse_member (parse_value f))
                  "}"%char (x :: l) eq_refl eq_refl) as Hitems.
    rewrite E in Hitems |- *. cbn [String.append] in *.
    rewrite (proj2 (parse_value_seq f c _ "["%char "]"%char
                      eq_refl eq_refl Hc1 Hc2)).
    rewrite Hitems; [reflexivity|discriminate| |].
    + apply Forall_forall. intros [k v] Hy rest' Hr'.
      apply parse_member_text.
      rewrite Forall_forall in IH. apply (IH _ Hy); [|exact Hr'].
      pose proof (length_joined_member member_text (x :: l) _ Hy) as Hl.
      unfold member_text in Hl at 1. rewrite !length_append in Hl.
      cbn [fst snd] in Hl |- *. lia.
    + assert (forall y, 1 <= String.length (member_text y)) as Hne.
      { intros y. destruct (member_text_head y) as (c' & s' & -> & _). simpl. lia. }
      pose proof (length_joined_count member_text (x :: l) Hne) as Hl.
      lia.
Qed.

Lemma loads_dumps j : loads (dumps j) = Some j.
Proof.
  unfold loads.
  rewrite <- (append_nil_r (dumps j)) at 2.
  now rewrite parse_value_dumps.
Qed.

(** *** Pointers and operations *)

Lemma pointer_text_cons t ts :
  pointer_text (t :: ts)
  = String "/" (String.append (escape_token t) (pointer_text ts)).
Proof.
  unfold pointer_text. cbn [map String.concat].
  destruct ts as [|t' ts']; cbn [map]; [now rewrite append_nil_r|reflexivity].
Qed.

Lemma pointer_tokens_text ts :
  forall t,
    pointer_tokens (String.append (escape_token t) (pointer_text ts)) = (t, ts).
Proof.
  induction ts as [|t' ts' IH]; intros t.
  - induction t as [|c t IHt]; [reflexivity|].
    cbn [escape_token].
    destruct (Ascii.eqb c "~"%char) eqn:E1.
    + apply Ascii.eqb_eq in E1 as ->.
      cbn [String.append pointer_tokens] in *.
      replace (Ascii.eqb "~" "/") with false by reflexivity.
      replace (Ascii.eqb "~" "~") with true by reflexivity.
      now rewrite IHt.
    + destruct (Ascii.eqb c "/"%char) eqn:E2.
      * apply Ascii.eqb_eq in E2 as ->.
        cbn [String.append pointer_tokens] in *.
        replace (Ascii.eqb "~" "/") with false by reflexivity.
        replace (Ascii.eqb "~" "~") with true by reflexivity.
        now rewrite IHt.
      * cbn [String.append pointer_tokens] in *. now rewrite E1, E2, IHt.
  - rewrite pointer_text_cons.
    induction t as [|c t IHt].
    + cbn [escape_token String.append pointer_tokens].
      replace (Ascii.eqb "/" "/") with true by reflexivity.
      now rewrite IH.
    + cbn [escape_token].
      destruct (Ascii.eqb c "~"%char) eqn:E1.
      * apply Ascii.eqb_eq in E1 as ->.
        cbn [String.append pointer_tokens] in *.
        replace (Ascii.eqb "~" "/") with false by reflexivity.
        replace (Ascii.eqb "~" "~") with true by reflexivity.
        now rewrite IHt.
      * destruct (Ascii.eqb c "/"%char) eqn:E2.
        -- apply Ascii.eqb_eq in E2 as ->.
           cbn [String.append pointer_tokens] in *.
           replace (Ascii.eqb "~" "/") with false by reflexivity.
           replace (Ascii.eqb "~" "~") with true by reflexivity.
           now rewrite IHt.
        -- cbn [String.append pointer_tokens] in *. now rewrite E1, E2, IHt.
Qed.

Lemma parse_pointer_text p : parse_pointer (pointer_text p) = Some p.
Proof.
  destruct p as [|t ts]; [reflexivity|].
  rewrite pointer_text_cons. cbn [parse_pointer].
  replace (Ascii.eqb "/" "/") with true by reflexivity.
  now rewrite pointer_tokens_text.
Qed.

Lemma json_op_op_json o : json_op (op_json o) = Some o.
Proof.
  destruct o; cbn [op_json json_op]; unfold pointer_field; cbn;
    rewrite ?parse_pointer_text; reflexivity.
Qed.

Lemma map_option_map {A B} (f : A -> option B) (g : B -> A) l :
  (forall y, f (g y) = Some y) -> map_option f (map g l) = Some l.
Proof.
  intros H. induction l as [|y l IH]; [reflexivity|].
  cbn [map map_option]. now rewrite H, IH.
Qed.

(** Decoding the [patch] field gives the patch that was encoded. *)
Lemma decode_patch0_encoded p :
  decode_patch0 (std_b64encode (patch_text p)) = Some p.
Proof.
  unfold decode_patch0, patch_text.
  rewrite std_b64decode_encode, loads_dumps.
  apply map_option_map, json_op_op_json.
Qed.

(** ** The provisioner: claims C1, C3 and C6 *)

(** C1, as stated, fails: a read refused with 403 (not a not-found) is
    handled as absence. [ensure] returns normally, having fetched the
    bundle and created the ConfigMap. *)
Lemma C1_counterexample :
  read_fault w_forbidden = Some (ApiException 403)
  /\ fst (ensure cfg0 (JStr "ns1") w_forbidden) = Ok tt
  /\ calls (snd (ensure cfg0 (JStr "ns1") w_forbidden))
     = [CallRead (JStr "ns1") "ca-bundle";
        CallFetch "http://ca.internal/ca.pem";
        CallCreate (JStr "ns1") "ca-bundle"]
  /\ cluster (snd (ensure cfg0 (JStr "ns1") w_forbidden))
     = [{| cm_namespace := JStr "ns1"; cm_name := "ca-bundle";
           cm_data := [("ca.pem", "PEM")] |}].
Proof. repeat split. Qed.

(** C1, amended. [ensure] does not tell not-found from the other failures
    of the API: whenever the read raises [ApiException], whatever its
    status, [ensure] goes on to [create_configmap], which fetches the
    bundle. A read that raises an exception of another class propagates
    unchanged, and then nothing is fetched or created. *)
Theorem C1_api_failure_taken_for_absence cfg namespace w e :
  read_fault w = Some e ->
  (is_ApiException e = true ->
     ensure cfg namespace w
     = create_configmap cfg namespace
         (log (CallRead namespace (configmap_name cfg)) w)
     /\ In (CallFetch (ca_bundle_url cfg)) (calls (snd (ensure cfg namespace w))))
  /\ (is_ApiException e = false ->
        ensure cfg namespace w
        = (Raise e, log (CallRead namespace (configmap_name cfg)) w)).
Proof.
  intros Hf.
  assert (read_namespaced_config_map namespace (configmap_name cfg) w
          = (Raise e, log (CallRead namespace (configmap_name cfg)) w)) as R.
  { unfold read_namespaced_config_map. now rewrite Hf. }
  split; intros He.
  - assert (ensure cfg namespace w
            = create_configmap cfg namespace
                (log (CallRead namespace (configmap_name cfg)) w)) as E.
    { unfold ensure, try_except_ApiException. now rewrite R, He. }
    split; [exact E|]. rewrite E. apply create_configmap_fetches.
  - unfold ensure, try_except_ApiException. now rewrite R, He.
Qed.

(** The refused read of [w_forbidden] is followed by a fetch; a broken
    connection on the read is not. *)
Lemma C1_api_failure_taken_for_absence_witness :
  In (CallFetch "http://ca.internal/ca.pem")
     (calls (snd (ensure cfg0 (JStr "ns1") w_forbidden)))
  /\ ensure cfg0 (JStr "ns1")
       (with_read_fault (OtherError "ConnectionError") (quiet [] 200 "PEM"))
     = (Raise (OtherError "ConnectionError"),
        log (CallRead (JStr "ns1") "ca-bundle")
          (with_read_fault (OtherError "ConnectionError") (quiet [] 200 "PEM"))).
Proof.
  split.
  - destruct (C1_api_failure_taken_for_absence cfg0 (JStr "ns1") w_forbidden
                (ApiException 403)) as [H _]; [reflexivity|].
    destruct H as [_ H]; [reflexivity | exact H].
  - destruct (C1_api_failure_taken_for_absence cfg0 (JStr "ns1")
                (with_read_fault (OtherError "ConnectionError") (quiet [] 200 "PEM"))
                (OtherError "ConnectionError")) as [_ H]; [reflexivity|].
    apply H. reflexivity.
Defined.

(** C3, as stated, fails: after a first [ensure] that created the
    ConfigMap, a second one whose read fails with a server error reaches
    the create call, and the already-exists answer (409) is raised, not
    swallowed. *)
Lemma C3_counterexample :
  fst (ensure cfg0 (JStr "ns1") (quiet [] 200 "PEM")) = Ok tt
  /\ fst (ensure cfg0 (JStr "ns1")
            (with_read_fault (ApiException 500)
               (snd (ensure cfg0 (JStr "ns1") (quiet [] 200 "PEM")))))
     = Raise (ApiException 409).
Proof. split; reflexivity. Qed.

(** C3, amended. After an [ensure] that returned, a second [ensure] for
    the namespace whose read call is answered returns without raising,
    makes no call but the read, and the namespace holds exactly one
    ConfigMap of that name. A create refused because the ConfigMap exists
    is not swallowed: its [ApiException] 409 leaves [ensure]. *)
Theorem C3_second_ensure_is_a_noop cfg namespace w0 w1 w2 :
  ensure cfg namespace w0 = (Ok tt, w1) ->
  count_cm namespace (configmap_name cfg) (cluster w0) <= 1 ->
  cluster w2 = cluster w1 ->
  read_fault w2 = None ->
  (ensure cfg namespace w2
   = (Ok tt, log (CallRead namespace (configmap_name cfg)) w2)
   /\ count_cm namespace (configmap_name cfg) (cluster w2) = 1)
  /\ forall w status r bundle,
       has_cm namespace (configmap_name cfg) (cluster w) = true ->
       read_fault w = Some (ApiException status) ->
       create_fault w = None ->
       remote w (ca_bundle_url cfg) = inr r ->
       status_code r = 200%Z ->
       decode_ascii (content r) = Ok bundle ->
       fst (ensure cfg namespace w) = Raise (ApiException 409)
       /\ cluster (snd (ensure cfg namespace w)) = cluster w.
Proof.
  intros E1 Hc Hw Hf. apply ensure_ok_inv in E1 as [H1 H2]. split.
  - rewrite Hw. split.
    + unfold ensure, try_except_ApiException, read_namespaced_config_map.
      now rewrite Hf, Hw, H1.
    + rewrite H2. lia.
  - intros w status r bundle Hh Hr Hcf Hrem Hst Hdec.
    unfold ensure, try_except_ApiException, read_namespaced_config_map.
    rewrite Hr. simpl.
    unfold create_configmap, bind, requests_get. simpl. rewrite Hrem, Hst. simpl.
    unfold lift. rewrite Hdec.
    unfold create_namespaced_config_map. simpl. rewrite Hcf, Hh. auto.
Qed.

(** Two calls in a row against a quiet cluster. *)
Lemma C3_second_ensure_is_a_noop_witness :
  count_cm (JStr "ns1") "ca-bundle"
    (cluster (snd (ensure cfg0 (JStr "ns1") (quiet [] 200 "PEM")))) = 1.
Proof.
  destruct (C3_second_ensure_is_a_noop cfg0 (JStr "ns1")
              (quiet [] 200 "PEM")
              (snd (ensure cfg0 (JStr "ns1") (quiet [] 200 "PEM")))
              (snd (ensure cfg0 (JStr "ns1") (quiet [] 200 "PEM"))))
    as [[_ H] _]; [reflexivity | vm_compute; lia | reflexivity | reflexivity | exact H].
Defined.

(** C6. When the remote source answers with a status other than 200,
    [create_configmap] raises the fetch exception right after the fetch: the
    create call is not made and the cluster is as before. The same holds of
    the provisioning step when the read reported the ConfigMap missing, and
    of the request that triggered it: the handler raises and answers
    nothing. *)
Theorem C6_failed_fetch_creates_nothing cfg namespace w r :
  remote w (ca_bundle_url cfg) = inr r ->
  status_code r <> 200%Z ->
  create_configmap cfg namespace w
  = (Raise (FetchException (ca_bundle_url cfg) (status_code r)),
     log (CallFetch (ca_bundle_url cfg)) w)
  /\ forall status,
       fst (read_namespaced_config_map namespace (configmap_name cfg) w)
       = Raise (ApiException status) ->
       (fst (ensure cfg namespace w)
        = Raise (FetchException (ca_bundle_url cfg) (status_code r))
        /\ cluster (snd (ensure cfg namespace w)) = cluster w
        /\ calls (snd (ensure cfg namespace w))
           = calls w ++ [CallRead namespace (configmap_name cfg);
                         CallFetch (ca_bundle_url cfg)])
       /\ forall from_diff str_patch b64encode body obj,
            the_object body = Ok obj ->
            the_annotation cfg obj = Ok (JStr "true") ->
            the_namespace obj = Ok namespace ->
            fst (handler cfg from_diff str_patch b64encode body w)
            = Raise (FetchException (ca_bundle_url cfg) (status_code r))
            /\ cluster (snd (snd (handler cfg from_diff str_patch b64encode body w)))
               = cluster w.
Proof.
  intros Hr Hs.
  assert (forall w0, remote w0 (ca_bundle_url cfg) = inr r ->
            create_configmap cfg namespace w0
            = (Raise (FetchException (ca_bundle_url cfg) (status_code r)),
               log (CallFetch (ca_bundle_url cfg)) w0)) as Hc.
  { intros w0 H0. unfold create_configmap, bind, requests_get. rewrite H0.
    destruct (Z.eqb (status_code r) 200) eqn:E; [|reflexivity].
    apply Z.eqb_eq in E. contradiction. }
  split; [now apply Hc|].
  intros status Hread.
  assert (ensure cfg namespace w
          = (Raise (FetchException (ca_bundle_url cfg) (status_code r)),
             log (CallFetch (ca_bundle_url cfg))
               (log (CallRead namespace (configmap_name cfg)) w))) as He.
  { unfold ensure, try_except_ApiException.
    destruct (read_namespaced_config_map namespace (configmap_name cfg) w)
      as [res w1] eqn:R.
    simpl in Hread. subst res. simpl.
    assert (w1 = log (CallRead namespace (configmap_name cfg)) w) as ->.
    { unfold read_namespaced_config_map in R.
      destruct (read_fault w); [|destruct (has_cm _ _ _)]; now injection R as _ <-. }
    now rewrite Hc by exact Hr. }
  split.
  - rewrite He. simpl. rewrite <- app_assoc. auto.
  - intros from_diff str_patch b64encode body obj Ho Ha Hn.
    rewrite (mutate_plan_raise cfg from_diff str_patch b64encode body w
               (FetchException (ca_bundle_url cfg) (status_code r))
               ([body; obj], log (CallFetch (ca_bundle_url cfg))
                               (log (CallRead namespace (configmap_name cfg)) w))).
    + auto.
    + now rewrite mutate_plan_start, Ho, Ha, (proj2 (eq_str_true _ _) eq_refl), Hn, He.
Qed.

(** The remote source answers 500; the read found nothing. *)
Lemma C6_failed_fetch_creates_nothing_witness :
  create_configmap cfg0 (JStr "ns1") (quiet [] 500 "oops")
  = (Raise (FetchException "http://ca.internal/ca.pem" 500),
     log (CallFetch "http://ca.internal/ca.pem") (quiet [] 500 "oops"))
  /\ cluster (snd (ensure cfg0 (JStr "ns1") (quiet [] 500 "oops"))) = []
  /\ fst (handler0 (admission (pod triggered [("containers", JArr [app_container])]))
            (quiet [] 500 "oops"))
     = Raise (FetchException "http://ca.internal/ca.pem" 500).
Proof.
  destruct (C6_failed_fetch_creates_nothing cfg0 (JStr "ns1") (quiet [] 500 "oops")
              {| status_code := 500; content := "oops" |})
    as [H1 H2]; [reflexivity | discriminate |].
  split; [exact H1|].
  destruct (H2 404%Z) as [(_ & H3 & _) H4]; [reflexivity|].
  split; [exact H3|].
  destruct (H4 root_diff patch_text std_b64encode
              (admission (pod triggered [("containers", JArr [app_container])]))
              (pod triggered [("containers", JArr [app_container])]))
    as [H5 _]; [reflexivity | reflexivity | reflexivity | exact H5].
Defined.

(** ** The handler: claims C2, C4, C5, C7, C8, C9 and C10 *)

Section Claims.
Variable cfg : Config.
Variable from_diff : json -> json -> list op.
Variable str_patch : list op -> string.
Variable b64encode : string -> string.

(** How the client of the webhook reads the [patch] field back. *)
Variable decode_patch : string -> option (list op).

(** What the library promises (section 4.3 of the specification): the
    patch between two documents turns the first into the second, and it is
    empty between a document and itself. *)
Hypothesis from_diff_sound : forall a b, apply_patch (from_diff a b) a = Some b.
Hypothesis from_diff_same : forall a, from_diff a a = [].

(** Decoding inverts the two library calls of line 93: the text of a patch
    in base64 is read back as that patch. *)
Hypothesis decode_patch_encoded :
  forall p, decode_patch (b64encode (str_patch p)) = Some p.

(** C2. For an object whose trigger annotation is the string ["true"] and
    a request the handler answers, the patch decoded from the [patch]
    field of the response, applied to the object, gives an object whose
    [spec.volumes] is the former sequence
    (empty when absent) followed by the one volume [ca-bundle], which
    refers to the ConfigMap with mode 420, and in which every container
    and every init-container has its former mounts (none when absent)
    followed by the one mount [ca-bundle] at [/etc/ssl/certs/<filename>]
    with [subPath] the filename. *)
Theorem C2_patch_injects_volume_and_mounts body w resp s' obj :
  the_object body = Ok obj ->
  the_annotation cfg obj = Ok (JStr "true") ->
  handler cfg from_diff str_patch b64encode body w = (Ok resp, s') ->
  exists text patch obj',
    get_path ["response"; "patch"] resp = Ok (JStr text)
    /\ decode_patch text = Some patch
    /\ apply_patch patch obj = Some obj'
    /\ spec_field "volumes" obj' = Some (JArr (volumes_of obj ++ [volume cfg]))
    /\ Forall2 (mounted cfg) (containers_of "containers" obj)
         (containers_of "containers" obj')
    /\ Forall2 (mounted cfg) (containers_of "initContainers" obj)
         (containers_of "initContainers" obj')
    /\ volume cfg
       = JObj [("name", JStr "ca-bundle");
               ("configMap", JObj [("name", JStr (configmap_name cfg));
                                   ("defaultMode", JNum 420)])]
    /\ volume_mount cfg
       = JObj [("name", JStr "ca-bundle");
               ("mountPath",
                JStr (String.append "/etc/ssl/certs/" (ca_bundle_filename cfg)));
               ("subPath", JStr (ca_bundle_filename cfg))].
Proof.
  intros Ho Ha H.
  apply (handler_triggered_inv _ _ _ _ _ _ _ _ _ Ho Ha) in H
    as (uid & obj' & w' & Hi & -> & ->).
  apply inject_doc_ok in Hi as (_ & Hv & Hc & Hic).
  exists (encode_patch str_patch b64encode (from_diff obj obj')),
    (from_diff obj obj'), obj'.
  split; [reflexivity|]. split; [apply decode_patch_encoded|].
  split; [apply from_diff_sound|]. auto.
Qed.

(** C4. When the value of the trigger annotation is anything but the string
    ["true"] (the key absent, which [get] answers with [None], another
    case, the boolean), the handler changes nothing and calls nothing: its
    copy equals the object, the world is as before, and the response has
    [allowed] true and the encoding of the empty patch. *)
Theorem C4_untriggered_is_empty_patch body w obj a uid :
  the_object body = Ok obj ->
  the_uid body = Ok uid ->
  the_annotation cfg obj = Ok a ->
  a <> JStr "true" ->
  exists resp,
    handler cfg from_diff str_patch b64encode body w
    = (Ok resp, ([body; obj], w))
    /\ get_path ["response"; "allowed"] resp = Ok (JBool true)
    /\ get_path ["response"; "uid"] resp = Ok uid
    /\ get_path ["response"; "patch"] resp
       = Ok (JStr (encode_patch str_patch b64encode [])).
Proof.
  intros Ho Hu Ha Hn.
  assert (mutate_plan cfg request_json (start body w)
          = (Ok (spec_ref, modified_spec_ref), ([body; obj], w))) as Hp.
  { rewrite mutate_plan_start, Ho, Ha. now rewrite (eq_str_false _ _ Hn). }
  exists (review str_patch b64encode uid []).
  rewrite (mutate_after_plan cfg from_diff str_patch b64encode _ _ _ _ _ Ho Hp).
  rewrite Hu, from_diff_same. repeat split.
Qed.

(** C5, amended. For a triggered object without [spec.containers] the
    loop of line 80 is not skipped: the handler answers nothing, and once
    provisioning and lines 68 to 78 have gone through it raises [KeyError]
    for [containers], the ConfigMap provisioned and the volume added to
    its copy. The guard the claim describes is that of line 73, for
    [spec.initContainers] only. *)
Theorem C5_missing_containers_raises body w obj :
  the_object body = Ok obj ->
  the_annotation cfg obj = Ok (JStr "true") ->
  spec_field "containers" obj = None ->
  (forall resp s',
      handler cfg from_diff str_patch b64encode body w <> (Ok resp, s'))
  /\ (forall namespace w' d1 d2,
         the_namespace obj = Ok namespace ->
         ensure cfg namespace w = (Ok tt, w') ->
         add_volume_doc cfg obj = Ok d1 ->
         mount_init_containers_doc cfg d1 = Ok d2 ->
         handler cfg from_diff str_patch b64encode body w
         = (Raise (KeyError "containers"), ([body; d2], w')))
  /\ (forall d sp,
         py_getitem d "spec" = Ok (JObj sp) ->
         dict_lookup "initContainers" sp = None ->
         mount_init_containers_doc cfg d = Ok d).
Proof.
  intros Ho Ha Hc. split; [|split].
  - intros resp s' H.
    apply (handler_triggered_inv _ _ _ _ _ _ _ _ _ Ho Ha) in H
      as (uid & obj' & w' & Hi & _ & _).
    unfold inject_doc in Hi.
    destruct (add_volume_doc cfg obj) as [d1|] eqn:H1; [|discriminate].
    destruct (mount_init_containers_doc cfg d1) as [d2|] eqn:H2; [|discriminate].
    destruct (mount_containers_doc cfg d2) as [d3|] eqn:H3; [|discriminate].
    destruct (fields_before_containers _ _ _ _ H1 H2) as [Hk Hv].
    rewrite (mount_containers_doc_absent _ _ _ Hv) in H3; [discriminate|].
    now rewrite Hk.
  - intros namespace w' d1 d2 Hn He H1 H2.
    destruct (fields_before_containers _ _ _ _ H1 H2) as [Hk Hv].
    apply mutate_plan_raise.
    rewrite mutate_plan_start, Ho, Ha, (proj2 (eq_str_true _ _) eq_refl), Hn, He.
    unfold inject_doc. rewrite H1, H2.
    rewrite (mount_containers_doc_absent _ _ _ Hv); [reflexivity|].
    now rewrite Hk.
  - intros d sp Hs Hi. unfold mount_init_containers_doc. rewrite Hs. cbn.
    unfold dict_mem. now rewrite Hi.
Qed.

(** C7. Whatever the outcome of lines 42 to 84, the parsed body, and with
    it the object [spec] refers to, is as it was received. When the lines
    return, [modified_spec] refers to another document of the store than
    [spec], so that no write through it, at whatever depth, reaches the
    object, and that document equals the object when the annotation does
    not trigger the mutation. *)
Theorem C7_plan_leaves_input_unchanged body w :
  fst (load request_json
         (fst (snd (mutate_plan cfg request_json (start body w))))) = Ok body
  /\ forall spec modified_spec s' obj,
       mutate_plan cfg request_json (start body w)
       = (Ok (spec, modified_spec), s') ->
       the_object body = Ok obj ->
       fst (load spec (fst s')) = Ok obj
       /\ (forall path f st,
              fst (load spec (snd (modify (fst modified_spec, path) f st)))
              = fst (load spec st))
       /\ exists modified,
            fst (load modified_spec (fst s')) = Ok modified
            /\ (forall a, the_annotation cfg obj = Ok a -> a <> JStr "true" ->
                  modified = obj).
Proof.
  split.
  - destruct (mutate_plan_keeps_body cfg body w) as [rest ->]. reflexivity.
  - intros spec modified_spec s' obj Hp Ho.
    apply mutate_plan_ok_inv in Hp as (obj0 & a & Ho0 & Ha & E & Hs).
    rewrite Ho in Ho0. injection Ho0 as <-. injection E as -> ->.
    assert (forall path f st,
               fst (load spec_ref (snd (modify (fst modified_spec_ref, path) f st)))
               = fst (load spec_ref st)) as Hframe.
    { intros path f st. now apply modify_other_document. }
    destruct Hs as [[E ->]|[E (ns & w' & obj' & _ & _ & _ & ->)]].
    + split; [exact Ho|]. split; [exact Hframe|].
      exists obj. split; [reflexivity|]. auto.
    + split; [exact Ho|]. split; [exact Hframe|].
      exists obj'. split; [reflexivity|].
      intros a' Ha' N. rewrite Ha in Ha'. injection Ha' as <-.
      apply eq_str_true in E. contradiction.
Qed.

(** C8. For a request the handler answers, the patch decoded from the
    [patch] field of the response, applied to the object of the request,
    gives exactly the document the planner left under [modified_spec]; the
    object of the request is still what [spec] refers to. *)
Theorem C8_patch_round_trip body w resp s' obj :
  the_object body = Ok obj ->
  handler cfg from_diff str_patch b64encode body w = (Ok resp, s') ->
  exists text patch modified,
    mutate_plan cfg request_json (start body w)
    = (Ok (spec_ref, modified_spec_ref), s')
    /\ fst (load spec_ref (fst s')) = Ok obj
    /\ fst (load modified_spec_ref (fst s')) = Ok modified
    /\ get_path ["response"; "patch"] resp = Ok (JStr text)
    /\ decode_patch text = Some patch
    /\ apply_patch patch obj = Some modified.
Proof.
  intros Ho H. apply handler_ok_inv in H
    as (obj0 & obj' & uid & w' & Ho' & Hu & Hp & -> & ->).
  rewrite Ho in Ho'. injection Ho' as <-.
  exists (encode_patch str_patch b64encode (from_diff obj obj')),
    (from_diff obj obj'), obj'.
  split; [exact Hp|].
  split; [exact Ho|]. split; [reflexivity|]. split; [reflexivity|].
  split; [apply decode_patch_encoded|apply from_diff_sound].
Qed.

(** C9. Two runs of the handler on the same body, in whatever worlds, that
    both answer, answer the same: the encoded patches are the same string,
    and the copies the planner leaves are the same document. *)
Theorem C9_patch_deterministic body w1 w2 r1 r2 s1 s2 :
  handler cfg from_diff str_patch b64encode body w1 = (Ok r1, s1) ->
  handler cfg from_diff str_patch b64encode body w2 = (Ok r2, s2) ->
  get_path ["response"; "patch"] r1 = get_path ["response"; "patch"] r2
  /\ r1 = r2 /\ fst s1 = fst s2.
Proof.
  intros H1 H2.
  apply handler_ok_inv in H1 as (obj & o1 & uid & w1' & Ho & Hu & Hp1 & -> & ->).
  apply handler_ok_inv in H2 as (obj' & o2 & uid' & w2' & Ho' & Hu' & Hp2 & -> & ->).
  rewrite Ho in Ho'. injection Ho' as <-. rewrite Hu in Hu'. injection Hu' as <-.
  assert (o1 = o2) as ->; [|auto].
  apply mutate_plan_ok_inv in Hp1 as (x1 & a1 & Hx1 & Ha1 & _ & Hs1).
  apply mutate_plan_ok_inv in Hp2 as (x2 & a2 & Hx2 & Ha2 & _ & Hs2).
  rewrite Ho in Hx1, Hx2. injection Hx1 as <-. injection Hx2 as <-.
  rewrite Ha1 in Ha2. injection Ha2 as <-.
  destruct Hs1 as [[E1 S1]|[E1 (n1 & u1 & d1 & _ & _ & I1 & S1)]];
    destruct Hs2 as [[E2 S2]|[E2 (n2 & u2 & d2 & _ & _ & I2 & S2)]];
    try congruence.
Qed.

(** C10. When the object of the request has no [metadata], or a
    [metadata] without [annotations], the handler raises [KeyError] on
    line 45, before any call and any response, whatever the rest of the
    object; a request the handler answers has [metadata.annotations]. *)
Theorem C10_missing_annotations_raises body w o :
  the_object body = Ok (JObj o) ->
  (dict_lookup "metadata" o = None ->
   handler cfg from_diff str_patch b64encode body w
   = (Raise (KeyError "metadata"), ([body; JObj o], w)))
  /\ (forall md,
         dict_lookup "metadata" o = Some (JObj md) ->
         dict_lookup "annotations" md = None ->
         handler cfg from_diff str_patch b64encode body w
         = (Raise (KeyError "annotations"), ([body; JObj o], w)))
  /\ (forall resp s',
         handler cfg from_diff str_patch b64encode body w = (Ok resp, s') ->
         exists anns, get_path ["metadata"; "annotations"] (JObj o) = Ok anns).
Proof.
  intros Ho. split; [|split].
  - intros Hm. apply mutate_plan_raise.
    rewrite mutate_plan_start, Ho. unfold the_annotation. cbn. now rewrite Hm.
  - intros md Hm Ha. apply mutate_plan_raise.
    rewrite mutate_plan_start, Ho. unfold the_annotation. cbn.
    rewrite Hm. cbn. now rewrite Ha.
  - intros resp s' H. apply handler_ok_inv in H
      as (obj0 & obj' & uid & w' & _ & _ & Hp & _ & _).
    apply mutate_plan_ok_inv in Hp as (obj & a & Ho' & Ha & _).
    rewrite Ho in Ho'. injection Ho' as <-.
    unfold the_annotation in Ha.
    destruct (get_path ["metadata"; "annotations"] (JObj o)) as [anns|];
      [now exists anns | discriminate].
Qed.

End Claims.

(** ** The claims on requests *)

(** Two containers, the second with a mount of its own; no volumes. *)
Lemma C2_patch_injects_volume_and_mounts_witness :
  exists resp text patch obj',
    fst (handler0 (admission two_containers) (quiet [] 200 "PEM")) = Ok resp
    /\ get_path ["response"; "patch"] resp = Ok (JStr text)
    /\ decode_patch0 text = Some patch
    /\ apply_patch patch two_containers = Some obj'
    /\ spec_field "volumes" obj' = Some (JArr [volume cfg0])
    /\ Forall2 (mounted cfg0) [app_container; sidecar_container]
         (containers_of "containers" obj').
Proof.
  unfold handler0.
  destruct (handler cfg0 root_diff patch_text std_b64encode
              (admission two_containers) (quiet [] 200 "PEM"))
    as [r s] eqn:E.
  destruct r as [resp|e]; [|vm_compute in E; discriminate].
  destruct (C2_patch_injects_volume_and_mounts cfg0 root_diff patch_text
              std_b64encode decode_patch0 root_diff_sound
              decode_patch0_encoded
              (admission two_containers) (quiet [] 200 "PEM")
              resp s two_containers eq_refl eq_refl E)
    as (text & patch & obj' & Ht & Hd & Ha & Hv & Hc & _).
  exists resp, text, patch, obj'. repeat split; auto.
Defined.

(** The annotation is there with another case. *)
Lemma C4_untriggered_is_empty_patch_witness :
  exists resp,
    handler0 (admission (pod [("ca-injector/inject", JStr "True")] []))
      (quiet [] 200 "PEM")
    = (Ok resp,
       ([admission (pod [("ca-injector/inject", JStr "True")] []);
         pod [("ca-injector/inject", JStr "True")] []],
        quiet [] 200 "PEM"))
    /\ get_path ["response"; "allowed"] resp = Ok (JBool true)
    /\ get_path ["response"; "patch"] resp = Ok (JStr "W10=").
Proof.
  destruct (C4_untriggered_is_empty_patch cfg0 root_diff patch_text
              std_b64encode root_diff_same
              (admission (pod [("ca-injector/inject", JStr "True")] []))
              (quiet [] 200 "PEM")
              (pod [("ca-injector/inject", JStr "True")] [])
              (JStr "True") (JStr "u-1"))
    as (resp & H & Hal & _ & Hp);
    [reflexivity | reflexivity | reflexivity | discriminate |].
  exists resp. auto.
Defined.

(** C5, as stated, fails: on a triggered pod whose [spec] has no
    [containers] the handler raises [KeyError] instead of skipping the
    loop. *)
Lemma C5_counterexample :
  the_annotation cfg0 (pod triggered []) = Ok (JStr "true")
  /\ spec_field "containers" (pod triggered []) = None
  /\ fst (handler0 (admission (pod triggered [])) (quiet [] 200 "PEM"))
     = Raise (KeyError "containers").
Proof. repeat split. Qed.

(** The same pod: the ConfigMap is provisioned and the copy has the volume
    when line 80 raises. *)
Lemma C5_missing_containers_raises_witness :
  handler0 (admission (pod triggered [])) (quiet [] 200 "PEM")
  = (Raise (KeyError "containers"),
     ([admission (pod triggered []);
       pod triggered [("volumes", JArr [volume cfg0])]],
      snd (ensure cfg0 (JStr "ns1") (quiet [] 200 "PEM")))).
Proof.
  destruct (C5_missing_containers_raises cfg0 root_diff patch_text std_b64encode
              (admission (pod triggered [])) (quiet [] 200 "PEM")
              (pod triggered []))
    as (_ & H & _); [reflexivity | reflexivity | reflexivity |].
  eapply (H (JStr "ns1")); lazy; reflexivity.
Defined.

(** A triggered request: the body is as received after the mutation. *)
Lemma C7_plan_leaves_input_unchanged_witness :
  fst (load request_json
         (fst (snd (mutate_plan cfg0 request_json
                      (start (admission two_containers) (quiet [] 200 "PEM"))))))
  = Ok (admission two_containers).
Proof.
  exact (proj1 (C7_plan_leaves_input_unchanged cfg0
                  (admission two_containers) (quiet [] 200 "PEM"))).
Defined.

(** The patch of the answer to the two-container pod gives the copy. *)
Lemma C8_patch_round_trip_witness :
  exists resp text patch modified,
    fst (handler0 (admission two_containers) (quiet [] 200 "PEM")) = Ok resp
    /\ fst (load modified_spec_ref
              (fst (snd (handler0 (admission two_containers)
                           (quiet [] 200 "PEM")))))
       = Ok modified
    /\ get_path ["response"; "patch"] resp = Ok (JStr text)
    /\ decode_patch0 text = Some patch
    /\ apply_patch patch two_containers = Some modified.
Proof.
  unfold handler0.
  destruct (handler cfg0 root_diff patch_text std_b64encode
              (admission two_containers) (quiet [] 200 "PEM"))
    as [r s] eqn:E.
  destruct r as [resp|e]; [|vm_compute in E; discriminate].
  destruct (C8_patch_round_trip cfg0 root_diff patch_text std_b64encode
              decode_patch0 root_diff_sound decode_patch0_encoded
              (admission two_containers) (quiet [] 200 "PEM")
              resp s two_containers eq_refl E)
    as (text & patch & modified & _ & _ & Hm & Ht & Hd & Ha).
  exists resp, text, patch, modified. repeat split; auto.
Defined.

(** The same request before and after the ConfigMap exists, with a remote
    source that has gone away in between. *)
Lemma C9_patch_deterministic_witness :
  fst (handler0 (admission two_containers) (quiet [] 200 "PEM"))
  = fst (handler0 (admission two_containers)
           (quiet [{| cm_namespace := JStr "ns1"; cm_name := "ca-bundle";
                      cm_data := [("ca.pem", "PEM")] |}] 503 "gone")).
Proof.
  unfold handler0.
  destruct (handler cfg0 root_diff patch_text std_b64encode
              (admission two_containers) (quiet [] 200 "PEM"))
    as [r1 s1] eqn:E1.
  destruct (handler cfg0 root_diff patch_text std_b64encode
              (admission two_containers)
              (quiet [{| cm_namespace := JStr "ns1"; cm_name := "ca-bundle";
                         cm_data := [("ca.pem", "PEM")] |}] 503 "gone"))
    as [r2 s2] eqn:E2.
  destruct r1 as [r1|e]; [|vm_compute in E1; discriminate].
  destruct r2 as [r2|e]; [|vm_compute in E2; discriminate].
  destruct (C9_patch_deterministic cfg0 root_diff patch_text std_b64encode
              _ _ _ _ _ _ _ E1 E2) as (_ & H & _).
  simpl. now rewrite H.
Defined.

(** The two requests of [test_app.py]: an empty object, and an object with
    labels and no annotations. *)
Lemma C10_missing_annotations_raises_witness :
  fst (handler0 (JObj [("request", JObj [("uid", JNum 1); ("object", JObj [])])])
         (quiet [] 200 "PEM"))
  = Raise (KeyError "metadata")
  /\ fst (handler0
            (JObj [("request",
                    JObj [("uid", JNum 1);
                          ("object", JObj [("metadata", JObj [("labels", JObj [])])])])])
            (quiet [] 200 "PEM"))
     = Raise (KeyError "annotations").
Proof.
  split.
  - destruct (C10_missing_annotations_raises cfg0 root_diff patch_text std_b64encode
                (JObj [("request", JObj [("uid", JNum 1); ("object", JObj [])])])
                (quiet [] 200 "PEM") []) as (H & _ & _); [reflexivity|].
    unfold handler0. now rewrite H.
  - destruct (C10_missing_annotations_raises cfg0 root_diff patch_text std_b64encode
                (JObj [("request",
                        JObj [("uid", JNum 1);
                              ("object",
                               JObj [("metadata", JObj [("labels", JObj [])])])])])
                (quiet [] 200 "PEM")
                [("metadata", JObj [("labels", JObj [])])]) as (_ & H & _);
      [reflexivity|].
    unfold handler0. now rewrite (H [("labels", JObj [])]).
Defined.

(** ** Scenarios of the specification, run *)

(** Annotation ["true"], namespace [ns1], one container [app] without
    mounts, no ConfigMap yet: the ConfigMap is created with the fetched
    bundle, and the copy has the volume and the container its one mount. *)
Example scenario_one_container :
  snd (handler0 (admission (pod triggered [("containers", JArr [app_container])]))
         (quiet [] 200 "PEM"))
  = ([admission (pod triggered [("containers", JArr [app_container])]);
      pod triggered
        [("containers",
          JArr [JObj [("name", JStr "app");
                      ("volumeMounts", JArr [volume_mount cfg0])]]);
         ("volumes", JArr [volume cfg0])]],
     {| cluster := [{| cm_namespace := JStr "ns1"; cm_name := "ca-bundle";
                       cm_data := [("ca.pem", "PEM")] |}];
        calls := [CallRead (JStr "ns1") "ca-bundle";
                  CallFetch "http://ca.internal/ca.pem";
                  CallCreate (JStr "ns1") "ca-bundle"];
        read_fault := None; create_fault := None;
        remote := remote (quiet [] 200 "PEM") |}).
Proof. reflexivity. Qed.

(** A bundle that is not ASCII: [decode] raises, nothing is created. *)
Example scenario_bundle_not_ascii :
  fst (handler0 (admission two_containers)
         (quiet [] 200 (String (ascii_of_nat 200) EmptyString)))
  = Raise UnicodeDecodeError
  /\ cluster (snd (snd (handler0 (admission two_containers)
                          (quiet [] 200 (String (ascii_of_nat 200) EmptyString)))))
     = [].
Proof. split; reflexivity. Qed.

(** Empty annotations: the answer carries the base64 text of [[]]. *)
Example scenario_no_annotation :
  get_path ["response"; "patch"]
    (match fst (handler0 (admission (pod [] [])) (quiet [] 200 "PEM")) with
     | Ok resp => resp
     | Raise _ => JNull
     end)
  = Ok (JStr "W10=").
Proof. reflexivity. Qed.

(** * Part 3: further properties of the handler *)

(** ** The world: what a request does to the cluster *)

Lemma decode_ascii_ok bytes b : decode_ascii bytes = Ok b -> b = bytes.
Proof.
  unfold decode_ascii. destruct (forallb _ _); [|discriminate].
  intros H. now injection H.
Qed.

Lemma decode_ascii_raises bytes c :
  In c (list_ascii_of_string bytes) ->
  128 <= nat_of_ascii c ->
  decode_ascii bytes = Raise UnicodeDecodeError.
Proof.
  intros Hin Hc. unfold decode_ascii.
  destruct (forallb _ _) eqn:E; [|reflexivity].
  rewrite forallb_forall in E. specialize (E c Hin).
  apply Nat.ltb_lt in E. lia.
Qed.

(** Everything [ensure] does to the world: the calls it makes, in order,
    why it went as far, and the one ConfigMap it may add. *)
Lemma ensure_effect cfg namespace w :
  exists n,
    1 <= n <= 3
    /\ calls (snd (ensure cfg namespace w))
       = calls w ++ firstn n (provisioning_calls cfg namespace)
    /\ (2 <= n ->
        exists status,
          fst (read_namespaced_config_map namespace (configmap_name cfg) w)
          = Raise (ApiException status))
    /\ (n = 3 ->
        exists r, remote w (ca_bundle_url cfg) = inr r
                  /\ status_code r = 200%Z
                  /\ decode_ascii (content r) = Ok (content r))
    /\ (cluster (snd (ensure cfg namespace w)) = cluster w
        \/ (fst (ensure cfg namespace w) = Ok tt
            /\ has_cm namespace (configmap_name cfg) (cluster w) = false
            /\ exists r, remote w (ca_bundle_url cfg) = inr r
                         /\ status_code r = 200%Z
                         /\ cluster (snd (ensure cfg namespace w))
                            = cluster w
                              ++ [bundle_configmap cfg namespace (content r)]))
    /\ (forall e, fst (ensure cfg namespace w) = Raise e ->
                  cluster (snd (ensure cfg namespace w)) = cluster w).
Proof.
  unfold ensure, try_except_ApiException, read_namespaced_config_map.
  assert (forall w1, remote w1 = remote w -> create_fault w1 = create_fault w ->
            cluster w1 = cluster w ->
            exists n,
              2 <= n <= 3
              /\ calls (snd (create_configmap cfg namespace w1))
                 = calls w1 ++ firstn (n - 1) (tl (provisioning_calls cfg namespace))
              /\ (n = 3 ->
                  exists r, remote w (ca_bundle_url cfg) = inr r
                            /\ status_code r = 200%Z
                            /\ decode_ascii (content r) = Ok (content r))
              /\ (cluster (snd (create_configmap cfg namespace w1)) = cluster w
                  \/ (fst (create_configmap cfg namespace w1) = Ok tt
                      /\ has_cm namespace (configmap_name cfg) (cluster w) = false
                      /\ exists r, remote w (ca_bundle_url cfg) = inr r
                                   /\ status_code r = 200%Z
                                   /\ cluster (snd (create_configmap cfg namespace w1))
                                      = cluster w
                                        ++ [bundle_configmap cfg namespace (content r)]))
              /\ (forall e, fst (create_configmap cfg namespace w1) = Raise e ->
                            cluster (snd (create_configmap cfg namespace w1))
                            = cluster w)) as Hcreate.
  { intros w1 Hrem Hcf Hcl.
    unfold create_configmap, bind, requests_get, lift, raise. rewrite Hrem.
    destruct (remote w (ca_bundle_url cfg)) as [e|r] eqn:Er; simpl.
    - exists 2. repeat split; auto; lia.
    - destruct (Z.eqb (status_code r) 200) eqn:Es; simpl.
      + apply Z.eqb_eq in Es.
        destruct (decode_ascii (content r)) as [bundle|e] eqn:Ed; simpl.
        * pose proof (decode_ascii_ok _ _ Ed) as ->.
          unfold create_namespaced_config_map. simpl. rewrite Hcf, Hcl.
          destruct (create_fault w) as [e|]; simpl.
          { exists 3. repeat split; eauto; try lia. now rewrite <- app_assoc. }
          destruct (has_cm namespace (configmap_name cfg) (cluster w)) eqn:Eh; simpl.
          { exists 3. repeat split; eauto; try lia. now rewrite <- app_assoc. }
          exists 3. split; [lia|]. split; [now rewrite <- app_assoc|].
          split; [eauto|]. split; [|discriminate].
          right. rewrite Hcl. repeat split; eauto.
        * exists 2. repeat split; auto; try lia.
      + exists 2. repeat split; auto; try lia. }
  destruct (read_fault w) as [e|] eqn:Ef; simpl.
  - destruct (is_ApiException e) eqn:Ea; simpl.
    + destruct e; try discriminate.
      destruct (Hcreate (log (CallRead namespace (configmap_name cfg)) w))
        as (n & Hn & Hc & H3 & Hcl & Hr); try reflexivity.
      exists n. split; [lia|]. split.
      { rewrite Hc. simpl. rewrite <- app_assoc. simpl.
        destruct n as [|[|n]]; try lia. reflexivity. }
      split; [eauto|]. auto.
    + exists 1. repeat split; auto; try lia; intros; lia.
  - destruct (has_cm namespace (configmap_name cfg) (cluster w)) eqn:Eh; simpl.
    + exists 1. repeat split; auto; try lia; intros; lia.
    + destruct (Hcreate (log (CallRead namespace (configmap_name cfg)) w))
        as (n & Hn & Hc & H3 & Hcl & Hr); try reflexivity.
      exists n. split; [lia|]. split.
      { rewrite Hc. simpl. rewrite <- app_assoc. simpl.
        destruct n as [|[|n]]; try lia. reflexivity. }
      split; [eauto|]. auto.
Qed.

Lemma plan_world cfg body w :
  snd (snd (mutate_plan cfg request_json (start body w)))
  = match trigger_namespace cfg body with
    | Some namespace => snd (ensure cfg namespace w)
    | None => w
    end.
Proof.
  rewrite mutate_plan_start. unfold trigger_namespace.
  destruct (the_object body) as [obj|]; [|reflexivity].
  destruct (the_annotation cfg obj) as [a|]; [|reflexivity].
  destruct (eq_str a "true"); [|reflexivity].
  destruct (the_namespace obj) as [namespace|]; [|reflexivity].
  destruct (ensure cfg namespace w) as [[[]|] w']; [|reflexivity].
  destruct (inject_doc cfg obj) as [[[]|] obj']; reflexivity.
Qed.

(** Lines 86 to 96 change neither the store nor the world. *)
Lemma handler_state cfg from_diff str_patch b64encode body w :
  snd (handler cfg from_diff str_patch b64encode body w)
  = snd (mutate_plan cfg request_json (start body w)).
Proof.
  destruct (mutate_plan cfg request_json (start body w)) as [[refs|e] s] eqn:P.
  - pose proof P as P'.
    apply mutate_plan_ok_inv in P' as (obj & a & Ho & _ & -> & Hs).
    assert (exists obj' w', s = ([body; obj'], w')) as (obj' & w' & ->).
    { destruct Hs as [[_ ->]|[_ (ns & w' & obj' & _ & _ & _ & ->)]]; eauto. }
    rewrite (mutate_after_plan cfg from_diff str_patch b64encode _ _ _ _ _ Ho P).
    now destruct (the_uid body).
  - now rewrite (mutate_plan_raise cfg from_diff str_patch b64encode _ _ _ _ P).
Qed.

Section World.
Variable cfg : Config.
Variable from_diff : json -> json -> list op.
Variable str_patch : list op -> string.
Variable b64encode : string -> string.

(** X1. The world after a request is the world [ensure] leaves, whatever
    happens on the later lines: an exception raised after line 53 does not
    undo the creation of the ConfigMap. A request that does not reach line
    50 (no trigger, or an exception before) leaves the world as it was. *)
Theorem handler_world_is_that_of_ensure body w :
  snd (snd (handler cfg from_diff str_patch b64encode body w))
  = match trigger_namespace cfg body with
    | Some namespace => snd (ensure cfg namespace w)
    | None => w
    end.
Proof. rewrite handler_state. apply plan_world. Qed.

(** X2. The calls of a request are a beginning of: read, fetch, create.
    None is made without the trigger; the fetch is made only after a read
    that raised [ApiException], the create only after a fetch answered with
    status 200 and ASCII bytes. *)
Theorem handler_calls_in_order body w :
  match trigger_namespace cfg body with
  | None =>
      calls (snd (snd (handler cfg from_diff str_patch b64encode body w)))
      = calls w
  | Some namespace =>
      exists n,
        1 <= n <= 3
        /\ calls (snd (snd (handler cfg from_diff str_patch b64encode body w)))
           = calls w ++ firstn n (provisioning_calls cfg namespace)
        /\ (2 <= n ->
            exists status,
              fst (read_namespaced_config_map namespace (configmap_name cfg) w)
              = Raise (ApiException status))
        /\ (n = 3 ->
            exists r, remote w (ca_bundle_url cfg) = inr r
                      /\ status_code r = 200%Z
                      /\ decode_ascii (content r) = Ok (content r))
  end.
Proof.
  rewrite handler_state, plan_world.
  destruct (trigger_namespace cfg body) as [namespace|]; [|reflexivity].
  destruct (ensure_effect cfg namespace w) as (n & Hn & Hc & H2 & H3 & _).
  exists n. auto.
Qed.

(** X3. A request never removes or changes a ConfigMap: the cluster after
    it is the cluster before, or the cluster before followed by one
    ConfigMap, in the namespace of the object, with the configured name and
    the single entry that maps the configured file name to the bytes
    fetched, and this only when there was none of that name. *)
Theorem handler_only_adds_the_bundle body w :
  cluster (snd (snd (handler cfg from_diff str_patch b64encode body w)))
  = cluster w
  \/ exists namespace r,
       trigger_namespace cfg body = Some namespace
       /\ has_cm namespace (configmap_name cfg) (cluster w) = false
       /\ remote w (ca_bundle_url cfg) = inr r
       /\ status_code r = 200%Z
       /\ cluster (snd (snd (handler cfg from_diff str_patch b64encode body w)))
          = cluster w ++ [bundle_configmap cfg namespace (content r)].
Proof.
  rewrite handler_state, plan_world.
  destruct (trigger_namespace cfg body) as [namespace|]; [|now left].
  destruct (ensure_effect cfg namespace w) as (n & _ & _ & _ & _ & Hcl & _).
  destruct Hcl as [Hcl|(_ & Hh & r & Hr & Hs & Hcl)]; [now left|].
  right. exists namespace, r. auto.
Qed.

End World.

(** ** The provisioner, outcome by outcome *)

(** X4. [ensure] returns exactly when the read finds the ConfigMap, or when
    the read raises [ApiException], the remote source answers 200 with
    ASCII bytes, and the create call goes through, the ConfigMap not being
    there. *)
Theorem ensure_returns_iff cfg namespace w :
  fst (ensure cfg namespace w) = Ok tt <->
  (read_fault w = None
   /\ has_cm namespace (configmap_name cfg) (cluster w) = true)
  \/ ((exists status,
          fst (read_namespaced_config_map namespace (configmap_name cfg) w)
          = Raise (ApiException status))
      /\ exists r,
           remote w (ca_bundle_url cfg) = inr r
           /\ status_code r = 200%Z
           /\ decode_ascii (content r) = Ok (content r)
           /\ create_fault w = None
           /\ has_cm namespace (configmap_name cfg) (cluster w) = false).
Proof.
  assert (forall w1, remote w1 = remote w -> create_fault w1 = create_fault w ->
            cluster w1 = cluster w ->
            fst (create_configmap cfg namespace w1) = Ok tt <->
            exists r,
              remote w (ca_bundle_url cfg) = inr r
              /\ status_code r = 200%Z
              /\ decode_ascii (content r) = Ok (content r)
              /\ create_fault w = None
              /\ has_cm namespace (configmap_name cfg) (cluster w) = false) as Hc.
  { intros w1 Hrem Hcf Hcl.
    unfold create_configmap, bind, requests_get, lift, raise,
      create_namespaced_config_map.
    rewrite Hrem.
    destruct (remote w (ca_bundle_url cfg)) as [e|r]; simpl.
    { split; [discriminate|]. intros (r & Hr & _). discriminate. }
    destruct (Z.eqb (status_code r) 200) eqn:Es; simpl.
    2:{ split; [discriminate|]. intros (r' & Hr & Hs & _).
        injection Hr as <-. apply Z.eqb_neq in Es. contradiction. }
    apply Z.eqb_eq in Es.
    destruct (decode_ascii (content r)) as [bundle|e] eqn:Ed; simpl.
    2:{ split; [discriminate|]. intros (r' & Hr & _ & Hd & _).
        injection Hr as <-. congruence. }
    pose proof (decode_ascii_ok _ _ Ed) as ->. rewrite Hcf, Hcl.
    destruct (create_fault w) as [e|]; simpl.
    { split; [discriminate|]. intros (r' & _ & _ & _ & Hf & _). discriminate. }
    destruct (has_cm namespace (configmap_name cfg) (cluster w)) eqn:Eh; simpl.
    { split; [discriminate|]. intros (r' & _ & _ & _ & _ & Hh). discriminate. }
    split; [|reflexivity]. intros _. exists r. auto. }
  unfold ensure, try_except_ApiException, read_namespaced_config_map.
  destruct (read_fault w) as [e|] eqn:Ef; simpl.
  - destruct (is_ApiException e) eqn:Ea; simpl.
    + destruct e; try discriminate. rewrite Hc by reflexivity. split.
      * intros H. right. split; [eauto|exact H].
      * intros [[H _]|[_ H]]; [discriminate|exact H].
    + split; [discriminate|].
      intros [[H _]|[[status H] _]]; [discriminate|].
      injection H as ->. discriminate.
  - destruct (has_cm namespace (configmap_name cfg) (cluster w)) eqn:Eh; simpl.
    + split; [auto|reflexivity].
    + rewrite Hc by reflexivity. split.
      * intros H. right. split; [eauto|exact H].
      * intros [[_ H]|[_ H]]; [discriminate|exact H].
Qed.

(** X5. A bundle with a byte outside ASCII is not stored, in whole or in
    part: [create_configmap] raises [UnicodeDecodeError] right after the
    fetch, and the create call is not made. *)
Theorem bundle_not_ascii_is_refused cfg namespace w r c :
  remote w (ca_bundle_url cfg) = inr r ->
  status_code r = 200%Z ->
  In c (list_ascii_of_string (content r)) ->
  128 <= nat_of_ascii c ->
  create_configmap cfg namespace w
  = (Raise UnicodeDecodeError, log (CallFetch (ca_bundle_url cfg)) w).
Proof.
  intros Hr Hs Hin Hc.
  unfold create_configmap, bind, requests_get, lift, raise.
  rewrite Hr, Hs. simpl. now rewrite (decode_ascii_raises _ _ Hin Hc).
Qed.

(** A bundle whose second byte is 0xE9. *)
Lemma bundle_not_ascii_is_refused_witness :
  create_configmap cfg0 (JStr "ns1")
    (quiet [] 200 (String "P"%char (String (ascii_of_nat 233) EmptyString)))
  = (Raise UnicodeDecodeError,
     log (CallFetch "http://ca.internal/ca.pem")
       (quiet [] 200 (String "P"%char (String (ascii_of_nat 233) EmptyString)))).
Proof.
  apply (bundle_not_ascii_is_refused cfg0 (JStr "ns1") _
           {| status_code := 200;
              content := String "P"%char (String (ascii_of_nat 233) EmptyString) |}
           (ascii_of_nat 233)).
  - reflexivity.
  - reflexivity.
  - simpl. right. left. reflexivity.
  - vm_compute. lia.
Defined.

(** ** The answer *)

Section Answers.
Variable cfg : Config.
Variable from_diff : json -> json -> list op.
Variable str_patch : list op -> string.
Variable b64encode : string -> string.
Variable decode_patch : string -> option (list op).

Hypothesis from_diff_sound : forall a b, apply_patch (from_diff a b) a = Some b.
Hypothesis decode_patch_encoded :
  forall p, decode_patch (b64encode (str_patch p)) = Some p.

(** X6. Every answer is an [AdmissionReview] with [allowed] true, the
    [uid] of the request, and the patch type [JSONPatch]; given to
    [jsonify] it passes the checks [valid] and [allowed] of the tests. *)
Theorem answer_passes_the_test_helpers body w resp s' :
  handler cfg from_diff str_patch b64encode body w = (Ok resp, s') ->
  valid (jsonify resp) = Ok true
  /\ allowed (jsonify resp) = Ok true
  /\ get_path ["response"; "uid"] resp = the_uid body
  /\ get_path ["response"; "patchType"] resp = Ok (JStr "JSONPatch")
  /\ py_getitem resp "kind" = Ok (JStr "AdmissionReview")
  /\ py_getitem resp "apiVersion" = Ok (JStr "admission.k8s.io/v1").
Proof.
  intros H. apply handler_ok_inv in H
    as (obj & obj' & uid & w' & _ & Hu & _ & _ & ->).
  rewrite Hu. repeat split.
Qed.

(** X7. When a triggered request is answered, the ConfigMap the injected
    volume names is in the namespace of the object. *)
Theorem answered_trigger_has_the_configmap body w resp s' obj :
  the_object body = Ok obj ->
  the_annotation cfg obj = Ok (JStr "true") ->
  handler cfg from_diff str_patch b64encode body w = (Ok resp, s') ->
  exists namespace,
    the_namespace obj = Ok namespace
    /\ has_cm namespace (configmap_name cfg) (cluster (snd s')) = true
    /\ get_path ["configMap"; "name"] (volume cfg)
       = Ok (JStr (configmap_name cfg)).
Proof.
  intros Ho Ha H. apply handler_ok_inv in H
    as (obj0 & obj' & uid & w' & _ & _ & Hp & -> & _).
  apply mutate_plan_ok_inv in Hp as (obj1 & a & Ho1 & Ha1 & _ & Hs).
  rewrite Ho in Ho1. injection Ho1 as <-.
  rewrite Ha in Ha1. injection Ha1 as <-.
  destruct Hs as [[E _]|[_ (ns & w1 & obj1 & Hn & He & _ & E)]]; [discriminate|].
  injection E as -> ->. exists ns. split; [exact Hn|].
  apply ensure_ok_inv in He as [He _]. split; [exact He|reflexivity].
Qed.

(** X8. A request without [uid] is never answered, and the missing key is
    only noticed on line 92: when lines 42 to 84 went through, the
    exception is raised with the ConfigMap provisioned and the copy
    mutated. *)
Theorem missing_uid_raises_last body w e :
  the_uid body = Raise e ->
  (forall resp s',
      handler cfg from_diff str_patch b64encode body w <> (Ok resp, s'))
  /\ (forall obj obj' w',
         the_object body = Ok obj ->
         mutate_plan cfg request_json (start body w)
         = (Ok (spec_ref, modified_spec_ref), ([body; obj'], w')) ->
         handler cfg from_diff str_patch b64encode body w
         = (Raise e, ([body; obj'], w'))).
Proof.
  intros Hu. split.
  - intros resp s' H. apply handler_ok_inv in H
      as (obj & obj' & uid & w' & _ & Hu' & _).
    congruence.
  - intros obj obj' w' Ho Hp.
    rewrite (mutate_after_plan cfg from_diff str_patch b64encode _ _ _ _ _ Ho Hp).
    now rewrite Hu.
Qed.

(** X9. A triggered object without [metadata.namespace] makes line 46
    raise: no call is made and the world is as before. *)
Theorem missing_namespace_raises_before_any_call body w obj e :
  the_object body = Ok obj ->
  the_annotation cfg obj = Ok (JStr "true") ->
  the_namespace obj = Raise e ->
  handler cfg from_diff str_patch b64encode body w
  = (Raise e, ([body; obj], w)).
Proof.
  intros Ho Ha Hn. apply mutate_plan_raise.
  now rewrite mutate_plan_start, Ho, Ha, (proj2 (eq_str_true _ _) eq_refl), Hn.
Qed.

(** X10. The patch decoded from the [patch] field of an answer to a
    triggered request is never the empty patch. *)
Theorem triggered_patch_is_not_empty body w resp s' obj :
  the_object body = Ok obj ->
  the_annotation cfg obj = Ok (JStr "true") ->
  handler cfg from_diff str_patch b64encode body w = (Ok resp, s') ->
  exists text patch,
    get_path ["response"; "patch"] resp = Ok (JStr text)
    /\ decode_patch text = Some patch
    /\ patch <> [].
Proof.
  intros Ho Ha H.
  apply (handler_triggered_inv _ _ _ _ _ _ _ _ _ Ho Ha) in H
    as (uid & obj' & w' & Hi & -> & ->).
  exists (encode_patch str_patch b64encode (from_diff obj obj')),
    (from_diff obj obj').
  split; [reflexivity|]. split; [apply decode_patch_encoded|]. intros E.
  pose proof (from_diff_sound obj obj') as S. rewrite E in S. simpl in S.
  injection S as <-.
  apply inject_doc_ok in Hi as (Hv & _).
  apply (f_equal (@List.length json)) in Hv. rewrite length_app in Hv.
  simpl in Hv. lia.
Qed.

End Answers.

(** The two-container pod, answered. *)
Lemma answer_passes_the_test_helpers_witness :
  exists resp,
    fst (handler0 (admission two_containers) (quiet [] 200 "PEM")) = Ok resp
    /\ valid (jsonify resp) = Ok true
    /\ allowed (jsonify resp) = Ok true
    /\ get_path ["response"; "uid"] resp = Ok (JStr "u-1").
Proof.
  unfold handler0.
  destruct (handler cfg0 root_diff patch_text std_b64encode
              (admission two_containers) (quiet [] 200 "PEM"))
    as [r s] eqn:E.
  destruct r as [resp|e]; [|vm_compute in E; discriminate].
  destruct (answer_passes_the_test_helpers cfg0 root_diff patch_text
              std_b64encode _ _ _ _ E) as (Hv & Ha & Hu & _).
  exists resp. repeat split; auto.
Defined.

Lemma answered_trigger_has_the_configmap_witness :
  has_cm (JStr "ns1") "ca-bundle"
    (cluster (snd (snd (handler0 (admission two_containers) (quiet [] 200 "PEM")))))
  = true.
Proof.
  unfold handler0.
  destruct (handler cfg0 root_diff patch_text std_b64encode
              (admission two_containers) (quiet [] 200 "PEM"))
    as [r s] eqn:E.
  destruct r as [resp|e]; [|vm_compute in E; discriminate].
  destruct (answered_trigger_has_the_configmap cfg0 root_diff patch_text
              std_b64encode (admission two_containers) (quiet [] 200 "PEM")
              resp s two_containers eq_refl eq_refl E)
    as (ns & Hn & Hh & _).
  injection Hn as <-. exact Hh.
Defined.

(** The two-container pod in a request without [uid]: the ConfigMap is
    created, and then [KeyError] is raised. *)
Lemma missing_uid_raises_last_witness :
  fst (handler0 (admission_without_uid two_containers) (quiet [] 200 "PEM"))
  = Raise (KeyError "uid")
  /\ cluster (snd (snd (handler0 (admission_without_uid two_containers)
                          (quiet [] 200 "PEM"))))
     = [bundle_configmap cfg0 (JStr "ns1") "PEM"].
Proof.
  destruct (missing_uid_raises_last cfg0 root_diff patch_text std_b64encode
              (admission_without_uid two_containers) (quiet [] 200 "PEM")
              (KeyError "uid") eq_refl) as [_ H].
  unfold handler0. erewrite H; cycle 1.
  - reflexivity.
  - lazy. reflexivity.
  - split; reflexivity.
Defined.

(** A triggered pod whose metadata has the annotation and nothing else. *)
Lemma missing_namespace_raises_before_any_call_witness :
  handler0
    (admission (JObj [("metadata", JObj [("annotations", JObj triggered)])]))
    (quiet [] 200 "PEM")
  = (Raise (KeyError "namespace"),
     ([admission (JObj [("metadata", JObj [("annotations", JObj triggered)])]);
       JObj [("metadata", JObj [("annotations", JObj triggered)])]],
      quiet [] 200 "PEM")).
Proof.
  apply (missing_namespace_raises_before_any_call cfg0 root_diff patch_text
           std_b64encode); reflexivity.
Defined.

Lemma triggered_patch_is_not_empty_witness :
  exists resp text patch,
    fst (handler0 (admission two_containers) provisioned) = Ok resp
    /\ get_path ["response"; "patch"] resp = Ok (JStr text)
    /\ decode_patch0 text = Some patch
    /\ patch <> [].
Proof.
  unfold handler0.
  destruct (handler cfg0 root_diff patch_text std_b64encode
              (admission two_containers) provisioned)
    as [r s] eqn:E.
  destruct r as [resp|e]; [|vm_compute in E; discriminate].
  destruct (triggered_patch_is_not_empty cfg0 root_diff patch_text
              std_b64encode decode_patch0 root_diff_sound
              decode_patch0_encoded
              (admission two_containers) provisioned
              resp s two_containers eq_refl eq_refl E)
    as (text & patch & Hp & Hd & Hne).
  exists resp, text, patch. auto.
Defined.

(** ** The pods lines 68 to 84 go through *)

Lemma dict_set_set {V} k (v v' : V) d :
  dict_set k v (dict_set k v' d) = dict_set k v d.
Proof.
  induction d as [|[k0 v0] d IH]; simpl.
  - now rewrite String.eqb_refl.
  - destruct (String.eqb k k0) eqn:E; simpl.
    + now rewrite String.eqb_refl.
    + now rewrite E, IH.
Qed.

Lemma spec_dict_of_field field d v :
  spec_field field d = Some v ->
  exists o s,
    d = JObj o /\ dict_lookup "spec" o = Some (JObj s)
    /\ dict_lookup field s = Some v.
Proof.
  unfold spec_field. cbn.
  destruct d as [| | | | |o]; try discriminate. cbn.
  destruct (dict_lookup "spec" o) as [sp|] eqn:Hsp; [|discriminate]. cbn.
  destruct sp as [| | | | |s]; try discriminate. cbn.
  destruct (dict_lookup field s) as [x|] eqn:Hf; [|discriminate].
  intros H. injection H as <-. now exists o, s.
Qed.

Lemma spec_field_of_dict field o s :
  dict_lookup "spec" o = Some (JObj s) ->
  spec_field field (JObj o) = dict_lookup field s.
Proof.
  intros Hs. unfold spec_field. cbn. rewrite Hs. cbn.
  now destruct (dict_lookup field s).
Qed.

Section Pods.
Variable cfg : Config.

Lemma add_volume_mount_succeeds_iff c :
  mountable c = true <-> exists c', add_volume_mount cfg c = Ok c'.
Proof.
  unfold mountable, add_volume_mount.
  destruct c as [| | |s|xs|d]; cbn.
  - split; [discriminate|]. intros [c' H]. discriminate.
  - split; [discriminate|]. intros [c' H]. discriminate.
  - split; [discriminate|]. intros [c' H]. discriminate.
  - split; [discriminate|]. intros [c' H].
    destruct (str_contains "volumeMounts" s); discriminate.
  - split; [discriminate|]. intros [c' H].
    destruct (existsb _ xs); discriminate.
  - unfold dict_mem.
    destruct (dict_lookup "volumeMounts" d) as [ms|]; cbn.
    + destruct ms; cbn; split; try discriminate; eauto;
        intros [c' H]; discriminate.
    + split; eauto.
Qed.

Lemma add_volume_mount_mountable c c' :
  add_volume_mount cfg c = Ok c' -> mountable c' = true.
Proof.
  unfold add_volume_mount, mountable.
  destruct c as [| | |s|xs|d]; try discriminate; cbn.
  - destruct (str_contains "volumeMounts" s); discriminate.
  - destruct (existsb _ xs); discriminate.
  - unfold dict_mem.
    destruct (dict_lookup "volumeMounts" d) as [ms|]; cbn.
    + destruct ms; try discriminate. cbn.
      intros H. injection H as <-. now rewrite dict_lookup_set_eq.
    + intros H. injection H as <-. now rewrite dict_lookup_set_eq.
Qed.

(** The loop body leaves the other members of a container alone. *)
Lemma add_volume_mount_frame c c' :
  add_volume_mount cfg c = Ok c' -> same_but_mounts c c'.
Proof.
  unfold add_volume_mount, same_but_mounts.
  destruct c as [| | |s|xs|d]; try discriminate; cbn.
  - destruct (str_contains "volumeMounts" s); discriminate.
  - destruct (existsb _ xs); discriminate.
  - unfold dict_mem.
    destruct (dict_lookup "volumeMounts" d) as [ms|]; cbn.
    + destruct ms; try discriminate. cbn.
      intros H k Hk. injection H as <-. cbn.
      rewrite dict_lookup_set_ne; auto.
    + intros H k Hk. injection H as <-. cbn.
      rewrite dict_lookup_set_ne; auto.
Qed.

Lemma mapR_mount_succeeds_iff xs :
  forallb mountable xs = true
  <-> exists ys, mapR (add_volume_mount cfg) xs = Ok ys.
Proof.
  induction xs as [|x xs IH]; simpl.
  - split; eauto.
  - rewrite andb_true_iff, IH, add_volume_mount_succeeds_iff. split.
    + intros [[c' Hc] [ys Hys]]. rewrite Hc, Hys. simpl. eauto.
    + intros [ys H].
      destruct (add_volume_mount cfg x) as [c'|]; [|discriminate]. simpl in H.
      destruct (mapR (add_volume_mount cfg) xs) as [ys'|]; [|discriminate].
      eauto.
Qed.

Lemma mapR_mount_mountable xs ys :
  mapR (add_volume_mount cfg) xs = Ok ys -> forallb mountable ys = true.
Proof.
  intros H. apply mapR_Forall2 in H.
  induction H as [|x y xs ys Hxy _ IH]; [reflexivity|]. simpl.
  now rewrite (add_volume_mount_mountable _ _ Hxy), IH.
Qed.

Lemma add_volume_mount_on_str s :
  exists e, add_volume_mount cfg (JStr s) = Raise e.
Proof.
  unfold add_volume_mount. cbn.
  destruct (str_contains "volumeMounts" s); cbn; eauto.
Qed.

(** The loops that go through, and what they leave. *)
Lemma py_for_succeeds_iff v :
  loop_ok v = true <-> exists v', py_for (add_volume_mount cfg) v = Ok v'.
Proof.
  unfold loop_ok, py_for. destruct v as [| | |s|xs|d]; cbn -[add_volume_mount].
  - split; [discriminate|]. intros [v' H]. discriminate.
  - split; [discriminate|]. intros [v' H]. discriminate.
  - split; [discriminate|]. intros [v' H]. discriminate.
  - destruct s as [|c s]; cbn -[add_volume_mount]; [split; eauto|].
    split; [discriminate|]. intros [v' H].
    destruct (add_volume_mount_on_str (String c EmptyString)) as [e He].
    rewrite He in H. discriminate.
  - rewrite mapR_mount_succeeds_iff. split.
    + intros [ys H]. rewrite H. cbn -[add_volume_mount]. eauto.
    + intros [v' H].
      destruct (mapR (add_volume_mount cfg) xs) as [ys|]; [eauto|discriminate].
  - destruct d as [|[k x] d]; cbn -[add_volume_mount]; [split; eauto|].
    split; [discriminate|]. intros [v' H].
    destruct (add_volume_mount_on_str k) as [e He].
    rewrite He in H. discriminate.
Qed.

Lemma py_for_loop_ok v v' :
  py_for (add_volume_mount cfg) v = Ok v' -> loop_ok v' = true.
Proof.
  intros H.
  assert (loop_ok v = true) as Hv by (apply py_for_succeeds_iff; eauto).
  unfold py_for in H. destruct v as [| | |s|xs|d]; try discriminate; cbn in H.
  - destruct (mapR _ _); [|discriminate]. now injection H as <-.
  - destruct (mapR _ xs) as [ys|] eqn:E; [|discriminate]. cbn in H.
    injection H as <-. cbn. now apply mapR_mount_mountable in E.
  - destruct (mapR _ _); [|discriminate]. now injection H as <-.
Qed.

Lemma py_for_Forall2 (R : json -> json -> Prop) v v' :
  (forall c c', add_volume_mount cfg c = Ok c' -> R c c') ->
  py_for (add_volume_mount cfg) v = Ok v' ->
  Forall2 R (entries (Some v)) (entries (Some v')).
Proof.
  intros HR. unfold py_for.
  destruct v as [| | |s|xs|d]; try discriminate; cbn.
  - destruct (mapR _ _); [|discriminate]. intros H. injection H as <-. constructor.
  - destruct (mapR _ xs) as [xs'|] eqn:E; [|discriminate]. cbn.
    intros H. injection H as <-. cbn.
    apply mapR_Forall2 in E. induction E; constructor; auto.
  - destruct (mapR _ _); [|discriminate]. intros H. injection H as <-. constructor.
Qed.

End Pods.

Section Injected.
Variable cfg : Config.

Lemma loop_ok_spec v :
  loop_ok v = match py_for (add_volume_mount cfg) v with
              | Ok _ => true
              | Raise _ => false
              end.
Proof.
  destruct (py_for (add_volume_mount cfg) v) as [v'|e] eqn:E.
  - apply (py_for_succeeds_iff cfg). eauto.
  - destruct (loop_ok v) eqn:L; [|reflexivity].
    apply (py_for_succeeds_iff cfg) in L as [v' L]. congruence.
Qed.

(** Lines 68 to 71 on a document whose [spec] is a dict. *)
Lemma add_volume_doc_on_dict o s :
  dict_lookup "spec" o = Some (JObj s) ->
  add_volume_doc cfg (JObj o)
  = match dict_lookup "volumes" s with
    | None =>
        Ok (JObj (dict_set "spec"
                    (JObj (dict_set "volumes" (JArr [volume cfg]) s)) o))
    | Some (JArr xs) =>
        Ok (JObj (dict_set "spec"
                    (JObj (dict_set "volumes" (JArr (xs ++ [volume cfg])) s)) o))
    | Some _ => Raise AttributeError
    end.
Proof.
  intros Hs. unfold add_volume_doc. cbn. rewrite Hs. cbn. unfold dict_mem.
  destruct (dict_lookup "volumes" s) as [v|] eqn:Hv; cbn; rewrite ?Hs; cbn;
    rewrite ?Hv; cbn; [|reflexivity].
  now destruct v.
Qed.

(** A loop over [spec.<field>] on such a document. *)
Lemma loop_on_dict field o s :
  dict_lookup "spec" o = Some (JObj s) ->
  at_path ["spec"; field] (py_for (add_volume_mount cfg)) (JObj o)
  = match dict_lookup field s with
    | None => Raise (KeyError field)
    | Some v =>
        match py_for (add_volume_mount cfg) v with
        | Ok v' => Ok (JObj (dict_set "spec" (JObj (dict_set field v' s)) o))
        | Raise e => Raise e
        end
    end.
Proof.
  intros Hs. cbn. rewrite Hs. cbn.
  destruct (dict_lookup field s) as [v|]; cbn; [|reflexivity].
  now destruct (py_for (add_volume_mount cfg) v).
Qed.

Lemma mount_init_containers_doc_on_dict o s :
  dict_lookup "spec" o = Some (JObj s) ->
  mount_init_containers_doc cfg (JObj o)
  = match dict_lookup "initContainers" s with
    | None => Ok (JObj o)
    | Some v =>
        match py_for (add_volume_mount cfg) v with
        | Ok v' =>
            Ok (JObj (dict_set "spec" (JObj (dict_set "initContainers" v' s)) o))
        | Raise e => Raise e
        end
    end.
Proof.
  intros Hs. unfold mount_init_containers_doc.
  rewrite (loop_on_dict _ _ _ Hs). cbn. rewrite Hs. cbn. unfold dict_mem.
  now destruct (dict_lookup "initContainers" s).
Qed.

(** Lines 68 to 71 only go through on a document whose [spec] is a dict. *)
Lemma add_volume_doc_spec_dict d d1 :
  add_volume_doc cfg d = Ok d1 ->
  exists o s, d = JObj o /\ dict_lookup "spec" o = Some (JObj s).
Proof.
  unfold add_volume_doc. cbn.
  destruct d as [| | | | |o]; try discriminate. cbn.
  destruct (dict_lookup "spec" o) as [sp|] eqn:Hs; [|discriminate]. cbn.
  destruct sp as [| | |x|xs|s]; try discriminate; cbn.
  - destruct (str_contains "volumes" x); discriminate.
  - destruct (existsb _ xs); discriminate.
  - intros _. now exists o, s.
Qed.

Ltac containers_step :=
  unfold mount_containers_doc;
  match goal with
  | |- context [at_path _ _ (JObj (dict_set "spec" (JObj ?s2) ?o1))] =>
      rewrite (loop_on_dict "containers" (dict_set "spec" (JObj s2) o1) s2)
        by apply dict_lookup_set_eq
  end;
  rewrite !dict_lookup_set_ne by discriminate;
  match goal with
  | |- context [dict_lookup "containers" ?s] =>
      destruct (dict_lookup "containers" s) as [cv|];
      [rewrite (loop_ok_spec cv);
       destruct (py_for (add_volume_mount cfg) cv)|];
      cbn; split; auto; discriminate
  end.

Ltac init_containers_step :=
  match goal with
  | |- context [mount_init_containers_doc cfg (JObj (dict_set "spec" (JObj ?s1) ?o))] =>
      rewrite (mount_init_containers_doc_on_dict (dict_set "spec" (JObj s1) o) s1)
        by apply dict_lookup_set_eq
  end;
  rewrite dict_lookup_set_ne by discriminate;
  match goal with
  | |- context [dict_lookup "initContainers" ?s] =>
      destruct (dict_lookup "initContainers" s) as [iv|];
      [rewrite (loop_ok_spec iv);
       destruct (py_for (add_volume_mount cfg) iv) as [iv'|];
       cbn -[mount_containers_doc]; [|split; discriminate]|]
  end.

(** The three statements go through exactly on the pods of [pod_ok]. *)
Lemma inject_doc_succeeds_iff d :
  fst (inject_doc cfg d) = Ok tt <-> pod_ok d = true.
Proof.
  assert (forall o s, dict_lookup "spec" o = Some (JObj s) ->
            fst (inject_doc cfg (JObj o)) = Ok tt <-> pod_ok (JObj o) = true) as Hdict.
  { intros o s Hs. unfold inject_doc, pod_ok.
    rewrite !(spec_field_of_dict _ _ _ Hs), (add_volume_doc_on_dict _ _ Hs).
    destruct (dict_lookup "volumes" s) as [v|] eqn:Hv.
    - destruct v as [| | | |xs|];
        cbn -[mount_containers_doc mount_init_containers_doc];
        try (split; discriminate).
      init_containers_step; containers_step.
    - cbn -[mount_containers_doc mount_init_containers_doc].
      init_containers_step; containers_step. }
  split.
  - intros H.
    destruct (add_volume_doc cfg d) as [d1|] eqn:H1.
    + destruct (add_volume_doc_spec_dict _ _ H1) as (o & s & -> & Hs).
      now apply (Hdict o s Hs).
    + unfold inject_doc in H. rewrite H1 in H. discriminate.
  - intros H.
    assert (exists cv, spec_field "containers" d = Some cv) as [cv Hc].
    { unfold pod_ok in H. destruct (spec_field "containers" d); [eauto|].
      rewrite andb_false_r in H. discriminate. }
    apply spec_dict_of_field in Hc as (o & s & -> & Hs & _).
    now apply (Hdict o s Hs).
Qed.

End Injected.

(** ** What an injection leaves as it was *)

(** A write below [spec] leaves the other top-level keys alone. *)
Lemma at_spec_keeps_top p g d d' k :
  at_path ("spec" :: p) g d = Ok d' -> k <> "spec" ->
  py_getitem d' k = py_getitem d k.
Proof.
  intros H Hk. cbn in H.
  destruct d as [| | | | |o]; try discriminate. cbn in H.
  destruct (dict_lookup "spec" o) as [sp|]; [|discriminate]. cbn in H.
  destruct (at_path p g sp) as [sp'|]; [|discriminate]. cbn in H.
  injection H as <-. cbn.
  rewrite dict_lookup_set_ne; [reflexivity|congruence].
Qed.

Lemma add_volume_doc_keeps_top cfg d d' k :
  add_volume_doc cfg d = Ok d' -> k <> "spec" ->
  py_getitem d' k = py_getitem d k.
Proof.
  unfold add_volume_doc. intros H Hk.
  destruct (py_getitem d "spec") as [sp|]; [|discriminate]. cbn -[at_path] in H.
  destruct (py_contains "volumes" sp) as [[]|]; [| |discriminate]; cbn -[at_path] in H;
    eapply at_spec_keeps_top; eauto.
Qed.

Lemma mount_init_containers_doc_keeps_top cfg d d' k :
  mount_init_containers_doc cfg d = Ok d' -> k <> "spec" ->
  py_getitem d' k = py_getitem d k.
Proof.
  unfold mount_init_containers_doc. intros H Hk.
  destruct (py_getitem d "spec") as [sp|]; [|discriminate]. cbn -[at_path] in H.
  destruct (py_contains "initContainers" sp) as [[]|]; [| |discriminate];
    cbn -[at_path] in H.
  - eapply at_spec_keeps_top; eauto.
  - now injection H as <-.
Qed.

(** The document an injection leaves, field by field. *)
Lemma inject_doc_fields cfg d d' :
  inject_doc cfg d = (Ok tt, d') ->
  spec_field "volumes" d' = Some (JArr (volumes_of d ++ [volume cfg]))
  /\ (exists cv cv',
        spec_field "containers" d = Some cv
        /\ py_for (add_volume_mount cfg) cv = Ok cv'
        /\ spec_field "containers" d' = Some cv')
  /\ ((spec_field "initContainers" d = None
       /\ spec_field "initContainers" d' = None)
      \/ (exists iv iv',
             spec_field "initContainers" d = Some iv
             /\ py_for (add_volume_mount cfg) iv = Ok iv'
             /\ spec_field "initContainers" d' = Some iv'))
  /\ (forall f, f <> "volumes" -> f <> "initContainers" -> f <> "containers" ->
        spec_field f d' = spec_field f d)
  /\ (forall k, k <> "spec" -> py_getitem d' k = py_getitem d k).
Proof.
  unfold inject_doc. intros H.
  destruct (add_volume_doc cfg d) as [d1|] eqn:H1; [|discriminate].
  destruct (mount_init_containers_doc cfg d1) as [d2|] eqn:H2; [|discriminate].
  destruct (mount_containers_doc cfg d2) as [d3|] eqn:H3; [|discriminate].
  injection H as <-.
  pose proof (add_volume_doc_ok _ _ _ H1) as S1.
  pose proof (mount_containers_doc_ok _ _ _ H3) as (cv & cv' & Hc & Hfor & S3).
  pose proof (fun k => add_volume_doc_keeps_top _ _ _ k H1) as T1.
  pose proof (fun k => mount_init_containers_doc_keeps_top _ _ _ k H2) as T2.
  assert (forall k, k <> "spec" -> py_getitem d3 k = py_getitem d2 k) as T3
    by (intros k; pose proof H3 as H3'; unfold mount_containers_doc in H3';
        apply (at_spec_keeps_top _ _ _ _ k H3')).
  assert (forall f, f <> "volumes" -> f <> "initContainers" -> f <> "containers" ->
            spec_field f d3 = spec_field f d) as Hrest.
  { intros f Hv Hi Hcn.
    rewrite (S3 f). replace (String.eqb "containers" f) with false
      by (symmetry; apply String.eqb_neq; congruence).
    destruct (mount_init_containers_doc_ok _ _ _ H2)
      as [[_ ->]|(iv & iv' & _ & _ & S2)].
    - rewrite (S1 f). now replace (String.eqb "volumes" f) with false
        by (symmetry; apply String.eqb_neq; congruence).
    - rewrite (S2 f). replace (String.eqb "initContainers" f) with false
        by (symmetry; apply String.eqb_neq; congruence).
      rewrite (S1 f). now replace (String.eqb "volumes" f) with false
        by (symmetry; apply String.eqb_neq; congruence). }
  assert (forall k, k <> "spec" -> py_getitem d3 k = py_getitem d k) as Htop.
  { intros k Hk. rewrite (T3 k Hk), (T2 k Hk). now apply T1. }
  destruct (mount_init_containers_doc_ok _ _ _ H2)
    as [[Hi ->]|(iv & iv' & Hi & Hifor & S2)].
  - refine (conj _ (conj _ (conj _ (conj Hrest Htop)))).
    + rewrite (S3 "volumes"). cbn. rewrite (S1 "volumes"). reflexivity.
    + exists cv, cv'. rewrite (S1 "containers") in Hc.
      refine (conj Hc (conj Hfor _)).
      rewrite (S3 "containers"). reflexivity.
    + left. rewrite (S1 "initContainers") in Hi. cbn in Hi. split; [exact Hi|].
      rewrite (S3 "initContainers"). cbn. rewrite (S1 "initContainers"). exact Hi.
  - refine (conj _ (conj _ (conj _ (conj Hrest Htop)))).
    + rewrite (S3 "volumes"). cbn. rewrite (S2 "volumes"). cbn.
      rewrite (S1 "volumes"). reflexivity.
    + exists cv, cv'. rewrite (S2 "containers") in Hc. cbn in Hc.
      rewrite (S1 "containers") in Hc.
      refine (conj Hc (conj Hfor _)).
      rewrite (S3 "containers"). reflexivity.
    + right. exists iv, iv'. rewrite (S1 "initContainers") in Hi.
      refine (conj Hi (conj Hifor _)).
      rewrite (S3 "initContainers"). cbn. rewrite (S2 "initContainers").
      reflexivity.
Qed.

Lemma Forall2_compose {A} (R S T : A -> A -> Prop) l1 l2 l3 :
  (forall a b c, R a b -> S b c -> T a c) ->
  Forall2 R l1 l2 -> Forall2 S l2 l3 -> Forall2 T l1 l3.
Proof.
  intros HT H12. revert l3.
  induction H12 as [|a b l1 l2 Hab _ IH]; intros l3 H23; inversion H23; subst;
    constructor; eauto.
Qed.

Lemma mounted_mounted_twice cfg a b c :
  mounted cfg a b -> mounted cfg b c -> mounted_twice cfg a c.
Proof.
  unfold mounted, mounted_twice. intros Hab Hbc.
  rewrite Hbc, Hab, <- app_assoc. reflexivity.
Qed.

(** What an injection leaves can be injected again. *)
Lemma inject_doc_pod_ok cfg d d' :
  inject_doc cfg d = (Ok tt, d') -> pod_ok d' = true.
Proof.
  intros H.
  destruct (inject_doc_fields _ _ _ H)
    as (Hv & (cv & cv' & _ & Hc & Hc') & Hi & _).
  unfold pod_ok. rewrite Hv, Hc', (py_for_loop_ok _ _ _ Hc).
  destruct Hi as [[_ ->]|(iv & iv' & _ & Hi & ->)]; [reflexivity|].
  now rewrite (py_for_loop_ok _ _ _ Hi).
Qed.

Lemma inject_doc_keeps_metadata cfg d d' :
  inject_doc cfg d = (Ok tt, d') ->
  the_annotation cfg d' = the_annotation cfg d
  /\ the_namespace d' = the_namespace d.
Proof.
  intros H.
  destruct (inject_doc_fields _ _ _ H) as (_ & _ & _ & _ & Htop).
  unfold the_annotation, the_namespace. cbn [get_path].
  rewrite (Htop "metadata") by discriminate. split; reflexivity.
Qed.

Section Admission.
Variable cfg : Config.
Variable from_diff : json -> json -> list op.
Variable str_patch : list op -> string.
Variable b64encode : string -> string.

(** A triggered request with a [uid] and a namespace, a provisioner that
    returns and a pod of [pod_ok] is answered. *)
Lemma handler_answers body w obj uid namespace :
  the_object body = Ok obj ->
  the_annotation cfg obj = Ok (JStr "true") ->
  the_uid body = Ok uid ->
  the_namespace obj = Ok namespace ->
  fst (ensure cfg namespace w) = Ok tt ->
  pod_ok obj = true ->
  exists obj' w',
    inject_doc cfg obj = (Ok tt, obj')
    /\ handler cfg from_diff str_patch b64encode body w
       = (Ok (review str_patch b64encode uid (from_diff obj obj')),
          ([body; obj'], w')).
Proof.
  intros Hobj Hann Huid Hns Hens Hpod.
  pose proof (mutate_plan_start cfg body w) as P.
  rewrite Hobj, Hann in P. cbn [eq_str] in P.
  replace (String.eqb "true" "true") with true in P by reflexivity.
  rewrite Hns in P.
  destruct (ensure cfg namespace w) as [[[]|e] w']; [|discriminate].
  apply (inject_doc_succeeds_iff cfg) in Hpod.
  destruct (inject_doc cfg obj) as [[[]|e] obj'] eqn:Hi; [|discriminate].
  exists obj', w'. split; [reflexivity|].
  rewrite (mutate_after_plan cfg from_diff str_patch b64encode _ _ _ _ _ Hobj P).
  now rewrite Huid.
Qed.

(** X11. A triggered request is answered exactly when it has a [uid], the
    pod has a namespace, the provisioner returns, and the pod is one that
    lines 68 to 84 go through: [spec] a dict, [volumes] absent or a list,
    [containers] present, and every container, and init container if any,
    a dict whose [volumeMounts] is absent or a list. *)
Theorem triggered_request_answered_iff body w obj :
  the_object body = Ok obj ->
  the_annotation cfg obj = Ok (JStr "true") ->
  (exists resp s',
      handler cfg from_diff str_patch b64encode body w = (Ok resp, s'))
  <->
  (exists uid namespace,
      the_uid body = Ok uid
      /\ the_namespace obj = Ok namespace
      /\ fst (ensure cfg namespace w) = Ok tt
      /\ pod_ok obj = true).
Proof.
  intros Hobj Hann. split.
  - intros (resp & s' & H).
    destruct (handler_ok_inv _ _ _ _ _ _ _ _ H)
      as (obj0 & obj' & uid & w' & Hobj0 & Huid & Hp & _).
    destruct (mutate_plan_ok_inv _ _ _ _ _ Hp)
      as (obj1 & a & Hobj1 & Ha & _ & Hcase).
    assert (obj1 = obj) as -> by congruence.
    assert (a = JStr "true") as -> by congruence.
    destruct Hcase as [[Hno _]|(_ & ns & w1 & obj1 & Hns & Hens & Hi & _)];
      [discriminate|].
    exists uid, ns. repeat split; auto.
    + now rewrite Hens.
    + apply (inject_doc_succeeds_iff cfg). now rewrite Hi.
  - intros (uid & ns & Huid & Hns & Hens & Hpod).
    destruct (handler_answers _ _ _ _ _ Hobj Hann Huid Hns Hens Hpod)
      as (obj' & w' & _ & H).
    eauto.
Qed.

(** X12. The copy behind an answer to a triggered request differs from the
    pod of the request in [spec.volumes] and in the [volumeMounts] of the
    containers and init containers only: the keys beside [spec], the other
    fields of [spec] and the other keys of every container are those of the
    request. *)
Theorem answer_touches_volumes_and_mounts_only body w resp s' obj :
  the_object body = Ok obj ->
  the_annotation cfg obj = Ok (JStr "true") ->
  handler cfg from_diff str_patch b64encode body w = (Ok resp, s') ->
  exists obj',
    fst s' = [body; obj']
    /\ (forall k, k <> "spec" -> py_getitem obj' k = py_getitem obj k)
    /\ (forall f, f <> "volumes" -> f <> "initContainers" -> f <> "containers" ->
          spec_field f obj' = spec_field f obj)
    /\ Forall2 same_but_mounts
         (containers_of "containers" obj) (containers_of "containers" obj')
    /\ Forall2 same_but_mounts
         (containers_of "initContainers" obj) (containers_of "initContainers" obj').
Proof.
  intros Hobj Hann H.
  destruct (handler_triggered_inv _ _ _ _ _ _ _ _ _ Hobj Hann H)
    as (uid & obj' & w' & Hi & -> & _).
  destruct (inject_doc_fields _ _ _ Hi)
    as (_ & (cv & cv' & Hc & Hfor & Hc') & Hinit & Hrest & Htop).
  exists obj'. refine (conj eq_refl (conj Htop (conj Hrest (conj _ _)))).
  - unfold containers_of. rewrite Hc, Hc'.
    apply (py_for_Forall2 cfg); [apply add_volume_mount_frame|exact Hfor].
  - unfold containers_of.
    destruct Hinit as [[-> ->]|(iv & iv' & -> & Hifor & ->)]; [constructor|].
    apply (py_for_Forall2 cfg); [apply add_volume_mount_frame|exact Hifor].
Qed.

(** X13. The handler does not look for what it adds: given the pod it has
    already injected, in a world where the provisioner returns, it answers
    again, and the copy then has the volume of the bundle twice and the
    mount of the bundle twice in every container and init container. *)
Theorem readmitted_pod_is_injected_twice
    body w resp obj obj' w' body2 w2 uid2 namespace :
  the_object body = Ok obj ->
  the_annotation cfg obj = Ok (JStr "true") ->
  handler cfg from_diff str_patch b64encode body w
  = (Ok resp, ([body; obj'], w')) ->
  the_object body2 = Ok obj' ->
  the_uid body2 = Ok uid2 ->
  the_namespace obj = Ok namespace ->
  fst (ensure cfg namespace w2) = Ok tt ->
  exists obj'' w2',
    handler cfg from_diff str_patch b64encode body2 w2
    = (Ok (review str_patch b64encode uid2 (from_diff obj' obj'')),
       ([body2; obj''], w2'))
    /\ volumes_of obj'' = volumes_of obj ++ [volume cfg; volume cfg]
    /\ Forall2 (mounted_twice cfg)
         (containers_of "containers" obj) (containers_of "containers" obj'')
    /\ Forall2 (mounted_twice cfg)
         (containers_of "initContainers" obj)
         (containers_of "initContainers" obj'').
Proof.
  intros Hobj Hann H Hobj2 Huid2 Hns Hens.
  destruct (handler_triggered_inv _ _ _ _ _ _ _ _ _ Hobj Hann H)
    as (uid & obj1 & w1 & Hi & Hs & _).
  injection Hs as <- <-.
  destruct (inject_doc_keeps_metadata _ _ _ Hi) as [Hann' Hns'].
  rewrite Hann in Hann'. rewrite Hns in Hns'.
  destruct (handler_answers _ _ _ _ _ Hobj2 Hann' Huid2 Hns' Hens
              (inject_doc_pod_ok _ _ _ Hi))
    as (obj'' & w2' & Hi2 & H2).
  exists obj'', w2'. split; [exact H2|].
  destruct (inject_doc_ok _ _ _ Hi) as (Hv1 & _ & Hc1 & Hn1).
  destruct (inject_doc_ok _ _ _ Hi2) as (Hv2 & _ & Hc2 & Hn2).
  repeat split.
  - rewrite Hv2, Hv1, <- app_assoc. reflexivity.
  - eapply Forall2_compose; [apply mounted_mounted_twice|exact Hc1|exact Hc2].
  - eapply Forall2_compose; [apply mounted_mounted_twice|exact Hn1|exact Hn2].
Qed.

(** X14. A triggered pod whose [spec.volumes] is there and is not a list is
    refused with [AttributeError], from [append] on line 69; by then the
    provisioner has run, and the copy is still the pod of the request. *)
Theorem volumes_not_a_list_raises body w obj namespace w' v :
  the_object body = Ok obj ->
  the_annotation cfg obj = Ok (JStr "true") ->
  the_namespace obj = Ok namespace ->
  ensure cfg namespace w = (Ok tt, w') ->
  spec_field "volumes" obj = Some v ->
  (forall xs, v <> JArr xs) ->
  handler cfg from_diff str_patch b64encode body w
  = (Raise AttributeError, ([body; obj], w')).
Proof.
  intros Hobj Hann Hns Hens Hv Hnl.
  apply mutate_plan_raise.
  rewrite mutate_plan_start, Hobj, Hann. cbn [eq_str].
  replace (String.eqb "true" "true") with true by reflexivity.
  rewrite Hns, Hens.
  destruct (spec_dict_of_field _ _ _ Hv) as (o & s & -> & Hs & Hvs).
  unfold inject_doc. rewrite (add_volume_doc_on_dict cfg _ _ Hs), Hvs.
  destruct v as [| | | |xs|]; try reflexivity. now destruct (Hnl xs).
Qed.

End Admission.

(** The two-container pod, in a cluster without the ConfigMap. *)
Lemma triggered_request_answered_iff_witness :
  exists resp s',
    handler0 (admission two_containers) (quiet [] 200 "PEM") = (Ok resp, s').
Proof.
  apply (triggered_request_answered_iff cfg0 root_diff patch_text std_b64encode
           (admission two_containers) (quiet [] 200 "PEM") two_containers
           eq_refl eq_refl).
  exists (JStr "u-1"), (JStr "ns1"). repeat split; reflexivity.
Defined.

Lemma answer_touches_volumes_and_mounts_only_witness :
  exists obj',
    fst (snd (handler0 (admission two_containers) (quiet [] 200 "PEM")))
    = [admission two_containers; obj']
    /\ py_getitem obj' "metadata" = py_getitem two_containers "metadata"
    /\ Forall2 same_but_mounts
         (containers_of "containers" two_containers)
         (containers_of "containers" obj').
Proof.
  unfold handler0.
  destruct (handler cfg0 root_diff patch_text std_b64encode
              (admission two_containers) (quiet [] 200 "PEM"))
    as [r s] eqn:E.
  destruct r as [resp|e]; [|vm_compute in E; discriminate].
  destruct (answer_touches_volumes_and_mounts_only cfg0 root_diff patch_text
              std_b64encode (admission two_containers) (quiet [] 200 "PEM")
              resp s two_containers eq_refl eq_refl E)
    as (obj' & Hs & Htop & _ & Hc & _).
  exists obj'. repeat split; auto. apply Htop. discriminate.
Defined.

(** The two-container pod, admitted once and then again. *)
Lemma readmitted_pod_is_injected_twice_witness :
  exists obj'' w2',
    handler0 (admission two_containers_injected) provisioned
    = (Ok (review patch_text std_b64encode (JStr "u-1")
             (root_diff two_containers_injected obj'')),
       ([admission two_containers_injected; obj''], w2'))
    /\ volumes_of obj'' = [volume cfg0; volume cfg0]
    /\ Forall2 (mounted_twice cfg0)
         (containers_of "containers" two_containers)
         (containers_of "containers" obj'').
Proof.
  assert (exists resp w',
             handler cfg0 root_diff patch_text std_b64encode
               (admission two_containers) (quiet [] 200 "PEM")
             = (Ok resp, ([admission two_containers; two_containers_injected], w')))
    as (resp & w' & E) by (eexists; eexists; lazy; reflexivity).
  destruct (readmitted_pod_is_injected_twice cfg0 root_diff patch_text
              std_b64encode
              (admission two_containers) (quiet [] 200 "PEM") resp
              two_containers two_containers_injected w'
              (admission two_containers_injected) provisioned
              (JStr "u-1") (JStr "ns1")
              eq_refl eq_refl E eq_refl eq_refl eq_refl eq_refl)
    as (obj'' & w2' & H & Hv & Hc & _).
  exists obj'', w2'. repeat split; auto.
Defined.

Lemma volumes_not_a_list_raises_witness :
  handler0 (admission null_volumes) (quiet [] 200 "PEM")
  = (Raise AttributeError,
     ([admission null_volumes; null_volumes],
      snd (ensure cfg0 (JStr "ns1") (quiet [] 200 "PEM")))).
Proof.
  apply (volumes_not_a_list_raises cfg0 root_diff patch_text std_b64encode
           (admission null_volumes) (quiet [] 200 "PEM") null_volumes
           (JStr "ns1") _ JNull); try reflexivity.
  intros xs. discriminate.
Defined.
